(** * jwt-pizza-service: authentication and authorization of the routers

    A shallow embedding of [authRouter.js], [franchiseRouter.js] and
    [userRouter.js].  Each Express handler becomes a computation in a small
    state-and-exception monad over the database; the middleware
    [setAuthUser] and [authRouter.authenticateToken] are functions on the
    request.  The collaborators that the routers import but that are not
    part of the sources (the database layer, the token library, the
    configuration) are modelled from the specification and marked so. *)

From Stdlib Require Import ZArith Ascii String DecimalString DecimalZ.
From stdpp Require Import base option strings list gmap.

Local Open Scope Z_scope.

(** ** JavaScript values used by the routers *)

(** Result of [Number(req.params.x)]: an integer or [NaN].  Route
    parameters that denote a non-integral number are not modelled; like
    [NaN] they are equal to no user, franchise or store id. *)
Inductive number : Type :=
  | NaN
  | Num (z : Z).

(** [a === b] on numbers: [NaN] is different from everything. *)
Definition number_eqb (a b : number) : bool :=
  match a, b with
  | Num x, Num y => Z.eqb x y
  | _, _ => false
  end.

(** [s.split(sep)] for a one-character separator: the pieces between the
    occurrences of [sep], empty pieces included. *)
Fixpoint split (sep : ascii) (s : string) : list string :=
  match s with
  | EmptyString => [EmptyString]
  | String c rest =>
      if Ascii.eqb c sep then EmptyString :: split sep rest
      else match split sep rest with
           | [] => [String c EmptyString]
           | piece :: pieces => String c piece :: pieces
           end
  end.

(** Truthiness of a string: every string but the empty one. *)
Definition truthy (s : string) : bool := negb (String.eqb s "").

(** ** Data model *)

Inductive Role : Type := Diner | Franchisee | Admin.

Definition Role_eqb (a b : Role) : bool :=
  match a, b with
  | Diner, Diner | Franchisee, Franchisee | Admin, Admin => true
  | _, _ => false
  end.

(** One element of [user.roles], an object [{ role: ... }]. *)
Record RoleEntry : Type := { role : Role }.

Module User.
(** The user object that the database returns, that [jwt.sign] signs and
    that [jwt.verify] gives back as [req.user]. *)
Record t : Type := { id : Z; name : string; email : string; roles : list RoleEntry }.
End User.

Module Admin.
(** One element of [franchise.admins]. *)
Record t : Type := { id : Z; name : string; email : string }.
End Admin.

Module Store.
Record t : Type := { id : Z; name : string; totalRevenue : Z }.
End Store.

Module Franchise.
Record t : Type :=
  { id : Z; name : string; admins : list Admin.t; stores : list Store.t }.
End Franchise.

(** What a handler can throw. [StatusCodeError] is the class of
    [endpointHelper.js]; the other two are the exceptions of the
    JavaScript runtime and of the token library. *)
Inductive Error : Type :=
  | StatusCodeError (message : string) (statusCode : Z)
  | TypeError (message : string)
  | JsonWebTokenError (message : string).

(** ** Token codec *)

(** Modelled from the spec: the token library ([jsonwebtoken]) is not part
    of the sources.  A token is "an opaque signed string" that "encodes an
    Identity snapshot (id, name, email, roles) plus a signature"; [issue]
    is a "deterministic signing of the identity payload with a process-wide
    secret key" and [decode] "verifies signature and deserializes payload".
    The text encoding chosen here writes every field in hexadecimal and
    separates the fields and the signature by dots. *)
Definition hex_digit (b0 b1 b2 b3 : bool) : ascii :=
  match b3, b2, b1, b0 with
  | false, false, false, false => "0"
  | false, false, false, true => "1"
  | false, false, true, false => "2"
  | false, false, true, true => "3"
  | false, true, false, false => "4"
  | false, true, false, true => "5"
  | false, true, true, false => "6"
  | false, true, true, true => "7"
  | true, false, false, false => "8"
  | true, false, false, true => "9"
  | true, false, true, false => "a"
  | true, false, true, true => "b"
  | true, true, false, false => "c"
  | true, true, false, true => "d"
  | true, true, true, false => "e"
  | true, true, true, true => "f"
  end%char.

Definition unhex_digit (c : ascii) : option (bool * bool * bool * bool) :=
  match c with
  | "0" => Some (false, false, false, false)
  | "1" => Some (true, false, false, false)
  | "2" => Some (false, true, false, false)
  | "3" => Some (true, true, false, false)
  | "4" => Some (false, false, true, false)
  | "5" => Some (true, false, true, false)
  | "6" => Some (false, true, true, false)
  | "7" => Some (true, true, true, false)
  | "8" => Some (false, false, false, true)
  | "9" => Some (true, false, false, true)
  | "a" => Some (false, true, false, true)
  | "b" => Some (true, true, false, true)
  | "c" => Some (false, false, true, true)
  | "d" => Some (true, false, true, true)
  | "e" => Some (false, true, true, true)
  | "f" => Some (true, true, true, true)
  | _ => None
  end%char.

Fixpoint hex (s : string) : string :=
  match s with
  | EmptyString => EmptyString
  | String (Ascii b0 b1 b2 b3 b4 b5 b6 b7) rest =>
      String (hex_digit b4 b5 b6 b7) (String (hex_digit b0 b1 b2 b3) (hex rest))
  end.

Fixpoint unhex (s : string) : option string :=
  match s with
  | EmptyString => Some EmptyString
  | String hi (String lo rest) =>
      match unhex_digit hi, unhex_digit lo, unhex rest with
      | Some (b4, b5, b6, b7), Some (b0, b1, b2, b3), Some r =>
          Some (String (Ascii b0 b1 b2 b3 b4 b5 b6 b7) r)
      | _, _, _ => None
      end
  | String _ EmptyString => None
  end.

Definition string_of_Z (z : Z) : string := NilEmpty.string_of_int (Z.to_int z).

Definition Z_of_string (s : string) : option Z :=
  Z.of_int <$> NilEmpty.int_of_string s.

Definition role_code (r : Role) : ascii :=
  match r with Diner => "d" | Franchisee => "f" | Admin => "a" end%char.

Definition role_of_code (c : ascii) : option Role :=
  match c with
  | "d" => Some Diner
  | "f" => Some Franchisee
  | "a" => Some Admin
  | _ => None
  end%char.

Fixpoint string_of_roles (rs : list RoleEntry) : string :=
  match rs with
  | [] => EmptyString
  | r :: rest => String (role_code (role r)) (string_of_roles rest)
  end.

Fixpoint roles_of_string (s : string) : option (list RoleEntry) :=
  match s with
  | EmptyString => Some []
  | String c rest =>
      match role_of_code c, roles_of_string rest with
      | Some r, Some rs => Some ({| role := r |} :: rs)
      | _, _ => None
      end
  end.

(** The four payload fields, each in hexadecimal, joined by dots. *)
Definition signing_input (u : User.t) : string :=
  String.concat "."
    [hex (string_of_Z (User.id u)); hex (User.name u); hex (User.email u);
     hex (string_of_roles (User.roles u))].

Definition payload_of_fields (hid hname hemail hroles : string) : option User.t :=
  i ← unhex hid ≫= Z_of_string;
  n ← unhex hname;
  e ← unhex hemail;
  rs ← unhex hroles ≫= roles_of_string;
  Some {| User.id := i; User.name := n; User.email := e; User.roles := rs |}.

(** ** The database and the handler monad *)

Module UserRow.
(** A row of the user table: the user object and the stored password. *)
Record t : Type :=
  { id : Z; name : string; email : string; password : string;
    roles : list RoleEntry }.

Definition user (r : t) : User.t :=
  {| User.id := id r; User.name := name r; User.email := email r;
     User.roles := roles r |}.
End UserRow.

(** Modelled from the spec: the database layer ([database/database.js]) is
    not part of the sources.  The Credential Store "persists user records
    (id, name, email, password hash, roles) and active-session records
    (token → validity)"; franchises carry their admins and stores. *)
Record DBState : Type :=
  { users : list UserRow.t;
    auth : gmap string Z;
    franchises : list Franchise.t;
    nextId : Z }.

(** The calls that reach the database, in the order they are made. *)
Inductive DBCall : Type :=
  | IsLoggedIn (token : string)
  | LoginUser (userId : Z) (token : string)
  | LogoutUser (token : string)
  | GetUser (email password : option string)
  | AddUser (name email password : string)
  | UpdateUser (userId : number) (name email password : option string)
  | GetFranchise (franchiseId : number)
  | GetUserFranchises (userId : number)
  | CreateFranchise (name : option string) (admins : list string)
  | DeleteFranchise (franchiseId : number)
  | CreateStore (franchiseId : Z) (name : option string)
  | DeleteStore (franchiseId storeId : number).

Record World : Type := { db : DBState; calls : list DBCall }.

(** An [async] function: it reads and writes the database, and either
    returns a value or throws. A thrown error keeps the writes made so far. *)
Definition M (A : Type) : Type := World -> (Error + A) * World.

Definition ret {A} (a : A) : M A := fun w => (inr a, w).

Definition throw {A} (e : Error) : M A := fun w => (inl e, w).

Definition bind {A B} (m : M A) (k : A -> M B) : M B :=
  fun w =>
    match m w with
    | (inl e, w') => (inl e, w')
    | (inr a, w') => k a w'
    end.

(** [try { m } catch { h }] *)
Definition try_catch {A} (m : M A) (h : Error -> M A) : M A :=
  fun w =>
    match m w with
    | (inl e, w') => h e w'
    | (inr a, w') => (inr a, w')
    end.

Definition lift {A} (r : Error + A) : M A := fun w => (r, w).

Declare Scope js_scope.
Delimit Scope js_scope with js.
Notation "x <~ m ;; k" := (bind m (fun x => k))
  (at level 100, m at next level, right associativity) : js_scope.
Notation "m ;;; k" := (bind m (fun _ => k))
  (at level 100, right associativity) : js_scope.
Local Open Scope js_scope.

Definition call (c : DBCall) : M unit :=
  fun w => (inr tt, {| db := db w; calls := calls w ++ [c] |}).

Definition get_db : M DBState := fun w => (inr (db w), w).

Definition put_db (d : DBState) : M unit :=
  fun w => (inr tt, {| db := d; calls := calls w |}).

Definition fresh_id : M Z :=
  d <~ get_db ;;
  put_db {| users := users d; auth := auth d; franchises := franchises d;
            nextId := nextId d + 1 |} ;;;
  ret (nextId d).

Definition opt_eqb (o : option string) (s : string) : bool :=
  match o with
  | Some x => String.eqb x s
  | None => false
  end.

Module DB.
(** Modelled from the spec: [isSessionActive(token) -> bool]. *)
Definition isLoggedIn (token : string) : M bool :=
  call (IsLoggedIn token) ;;;
  d <~ get_db ;;
  ret (bool_decide (is_Some (auth d !! token))).

(** Modelled from the spec: [recordSession(token, userId)]. *)
Definition loginUser (userId : Z) (token : string) : M unit :=
  call (LoginUser userId token) ;;;
  d <~ get_db ;;
  put_db {| users := users d; auth := <[token := userId]> (auth d);
            franchises := franchises d; nextId := nextId d |}.

(** Modelled from the spec: [revokeSession(token)]. *)
Definition logoutUser (token : string) : M unit :=
  call (LogoutUser token) ;;;
  d <~ get_db ;;
  put_db {| users := users d; auth := delete token (auth d);
            franchises := franchises d; nextId := nextId d |}.

Definition credentials_match (email password : option string) (r : UserRow.t)
  : bool :=
  opt_eqb email (UserRow.email r) && opt_eqb password (UserRow.password r).

(** Modelled from the spec:
    [findUserByCredentials(email, password) -> User|null]. *)
Definition getUser (email password : option string) : M (option User.t) :=
  call (GetUser email password) ;;;
  d <~ get_db ;;
  ret (UserRow.user <$> List.find (credentials_match email password) (users d)).

(** Modelled from the spec: [createUser]. *)
Definition addUser (name email password : string) (roles : list RoleEntry)
  : M User.t :=
  call (AddUser name email password) ;;;
  i <~ fresh_id ;;
  d <~ get_db ;;
  let row := {| UserRow.id := i; UserRow.name := name; UserRow.email := email;
                UserRow.password := password; UserRow.roles := roles |} in
  put_db {| users := users d ++ [row]; auth := auth d;
            franchises := franchises d; nextId := nextId d |} ;;;
  ret (UserRow.user row).

Definition update_row (name email password : option string) (r : UserRow.t)
  : UserRow.t :=
  {| UserRow.id := UserRow.id r;
     UserRow.name := default (UserRow.name r) name;
     UserRow.email := default (UserRow.email r) email;
     UserRow.password := default (UserRow.password r) password;
     UserRow.roles := UserRow.roles r |}.

Definition has_id (userId : number) (r : UserRow.t) : bool :=
  number_eqb (Num (UserRow.id r)) userId.

(** Modelled from the spec: [updateUser(id, fields)], "persists changed
    fields"; an absent user is the [NotFound] of the error taxonomy. *)
Definition updateUser (userId : number) (name email password : option string)
  : M User.t :=
  call (UpdateUser userId name email password) ;;;
  d <~ get_db ;;
  match List.find (has_id userId) (users d) with
  | None => throw (StatusCodeError "unknown user" 404)
  | Some r =>
      put_db {| users := map (fun r' => if has_id userId r'
                                        then update_row name email password r'
                                        else r') (users d);
                auth := auth d; franchises := franchises d;
                nextId := nextId d |} ;;;
      ret (UserRow.user (update_row name email password r))
  end.

Definition is_franchise (franchiseId : number) (f : Franchise.t) : bool :=
  number_eqb (Num (Franchise.id f)) franchiseId.

(** Modelled from the spec: the franchise with its admins and stores, or
    [null] ("the core must tolerate a null lookup result"). *)
Definition getFranchise (franchiseId : number) : M (option Franchise.t) :=
  call (GetFranchise franchiseId) ;;;
  d <~ get_db ;;
  ret (List.find (is_franchise franchiseId) (franchises d)).

Definition is_admin_of (userId : number) (f : Franchise.t) : bool :=
  existsb (fun a => number_eqb (Num (Admin.id a)) userId) (Franchise.admins f).

(** Modelled from the spec: the franchises whose admin set holds the user. *)
Definition getUserFranchises (userId : number) : M (list Franchise.t) :=
  call (GetUserFranchises userId) ;;;
  d <~ get_db ;;
  ret (List.filter (is_admin_of userId) (franchises d)).

Definition admin_of_row (r : UserRow.t) : Admin.t :=
  {| Admin.id := UserRow.id r; Admin.name := UserRow.name r;
     Admin.email := UserRow.email r |}.

Fixpoint resolve_admins (rows : list UserRow.t) (emails : list string)
  : option (list Admin.t) :=
  match emails with
  | [] => Some []
  | e :: rest =>
      match List.find (fun r => String.eqb (UserRow.email r) e) rows,
            resolve_admins rows rest with
      | Some r, Some l => Some (admin_of_row r :: l)
      | _, _ => None
      end
  end.

(** Modelled from the spec: a new franchise whose admin set is the users
    named by e-mail; an unknown e-mail is [NotFound]. *)
Definition createFranchise (name : option string) (admins : list string)
  : M Franchise.t :=
  call (CreateFranchise name admins) ;;;
  d <~ get_db ;;
  match resolve_admins (users d) admins with
  | None => throw (StatusCodeError "unknown user for franchise admin" 404)
  | Some l =>
      i <~ fresh_id ;;
      d <~ get_db ;;
      let f := {| Franchise.id := i; Franchise.name := default "" name;
                  Franchise.admins := l; Franchise.stores := [] |} in
      put_db {| users := users d; auth := auth d;
                franchises := franchises d ++ [f]; nextId := nextId d |} ;;;
      ret f
  end.

(** Modelled from the spec: removes the franchise (and its stores). *)
Definition deleteFranchise (franchiseId : number) : M unit :=
  call (DeleteFranchise franchiseId) ;;;
  d <~ get_db ;;
  put_db {| users := users d; auth := auth d;
            franchises :=
              List.filter (fun f => negb (is_franchise franchiseId f))
                          (franchises d);
            nextId := nextId d |}.

Definition add_store (s : Store.t) (f : Franchise.t) : Franchise.t :=
  {| Franchise.id := Franchise.id f; Franchise.name := Franchise.name f;
     Franchise.admins := Franchise.admins f;
     Franchise.stores := Franchise.stores f ++ [s] |}.

(** Modelled from the spec: a new store of the franchise. *)
Definition createStore (franchiseId : Z) (name : option string) : M Store.t :=
  call (CreateStore franchiseId name) ;;;
  i <~ fresh_id ;;
  d <~ get_db ;;
  let s := {| Store.id := i; Store.name := default "" name;
              Store.totalRevenue := 0 |} in
  put_db {| users := users d; auth := auth d;
            franchises := map (fun f => if is_franchise (Num franchiseId) f
                                        then add_store s f else f)
                              (franchises d);
            nextId := nextId d |} ;;;
  ret s.

Definition remove_store (storeId : number) (f : Franchise.t) : Franchise.t :=
  {| Franchise.id := Franchise.id f; Franchise.name := Franchise.name f;
     Franchise.admins := Franchise.admins f;
     Franchise.stores :=
       List.filter (fun s => negb (number_eqb (Num (Store.id s)) storeId))
                   (Franchise.stores f) |}.

(** Modelled from the spec: removes the store from the franchise. *)
Definition deleteStore (franchiseId storeId : number) : M unit :=
  call (DeleteStore franchiseId storeId) ;;;
  d <~ get_db ;;
  put_db {| users := users d; auth := auth d;
            franchises := map (fun f => if is_franchise franchiseId f
                                        then remove_store storeId f else f)
                              (franchises d);
            nextId := nextId d |}.
End DB.

(** ** Requests and responses *)

Module Req.
(** [req.body]: the fields the handlers read; an absent field is [None]. *)
Record body_t : Type :=
  { name : option string; email : option string; password : option string;
    admins : list string }.

(** [req.params], each already converted by [Number(...)]. *)
Record params_t : Type :=
  { userId : number; franchiseId : number; storeId : number }.

(** The request object. [authorization] is [req.headers.authorization];
    [user] is the field [req.user], which [setAuthUser] assigns. *)
Record t : Type :=
  { authorization : option string; params : params_t; body : body_t;
    user : option User.t }.

Definition set_user (req : t) (u : option User.t) : t :=
  {| authorization := authorization req; params := params req;
     body := body req; user := u |}.

(** A request as it arrives: [req.user] is not set. *)
Definition incoming (h : option string) (p : params_t) (b : body_t) : t :=
  {| authorization := h; params := p; body := b; user := None |}.
End Req.

Inductive Json : Type :=
  | JMessage (message : string)
  | JUserToken (user : option User.t) (token : string)
  | JUser (user : User.t)
  | JFranchise (franchise : Franchise.t)
  | JFranchises (result : list Franchise.t)
  | JStore (store : Store.t)
  | JUsers (message : string) (users : list User.t) (more : bool).

Record Response : Type := { status : Z; json : Json }.

(** [res.json(x)] and [res.send(x)] answer with status 200. *)
Definition res_json (x : Json) : Response := {| status := 200; json := x |}.

(** ** authRouter.js *)

(** [readAuthToken]: the second piece of the header split at spaces;
    [None] stands for both [null] and [undefined]. *)
Definition readAuthToken (req : Req.t) : option string :=
  match Req.authorization req with
  | Some authHeader =>
      if truthy authHeader then split " " authHeader !! 1%nat else None
  | None => None
  end.

(** [req.user.isRole], the closure that [setAuthUser] attaches. *)
Definition isRole (u : User.t) (r : Role) : bool :=
  existsb (fun e => Role_eqb (role e) r) (User.roles u).

(** [req.user] where the handler dereferences it. *)
Definition req_user (req : Req.t) : M User.t :=
  match Req.user req with
  | Some u => ret u
  | None => throw (TypeError "Cannot read properties of undefined")
  end.

(** [authRouter.authenticateToken], with [next] the rest of the chain. *)
Definition authenticateToken (req : Req.t) (next : M Response) : M Response :=
  match Req.user req with
  | None => ret {| status := 401; json := JMessage "unauthorized" |}
  | Some _ => next
  end.

(** [!x] is false exactly on a non-empty string. *)
Definition present (o : option string) : option string :=
  match o with
  | Some s => if truthy s then Some s else None
  | None => None
  end.

Section Routers.

(** The keyed signature function of the token library. *)
Variable hmac : string -> string -> string.

(** [config.jwtSecret]. *)
Variable jwtSecret : string.

(** Modelled from the spec: [issue(identity) -> token], which "fails only
    on malformed identity input"; here on [null]. *)
Definition jwt_sign (payload : option User.t) (secret : string)
  : Error + string :=
  match payload with
  | None => inl (JsonWebTokenError "Expected payload to be a plain object")
  | Some u =>
      inr (signing_input u +:+ "." +:+ hex (hmac secret (signing_input u)))
  end.

(** Modelled from the spec: [decode(token) -> identity | DecodeError],
    "fails with InvalidSignature if tampered, Malformed if not a
    recognized token shape". *)
Definition jwt_verify (token secret : string) : Error + User.t :=
  match split "." token with
  | [hid; hname; hemail; hroles; hsig] =>
      if String.eqb hsig
           (hex (hmac secret (String.concat "." [hid; hname; hemail; hroles])))
      then match payload_of_fields hid hname hemail hroles with
           | Some u => inr u
           | None => inl (JsonWebTokenError "jwt malformed")
           end
      else inl (JsonWebTokenError "invalid signature")
  | _ => inl (JsonWebTokenError "jwt malformed")
  end.

Definition setAuthUser (req : Req.t) : M Req.t :=
  match readAuthToken req with
  | Some token =>
      if truthy token then
        try_catch
          (logged <~ DB.isLoggedIn token ;;
           if logged then
             u <~ lift (jwt_verify token jwtSecret) ;;
             ret (Req.set_user req (Some u))
           else ret req)
          (fun _ => ret (Req.set_user req None))
      else ret req
  | None => ret req
  end.

Definition setAuth (user : option User.t) : M string :=
  token <~ lift (jwt_sign user jwtSecret) ;;
  userId <~ match user with
            | Some u => ret (User.id u)
            | None => throw (TypeError "Cannot read properties of null")
            end ;;
  DB.loginUser userId token ;;;
  ret token.

Definition clearAuth (req : Req.t) : M unit :=
  match readAuthToken req with
  | Some token => if truthy token then DB.logoutUser token else ret tt
  | None => ret tt
  end.

(** [authRouter.post('/')]: register. *)
Definition authRouter_post (req : Req.t) : M Response :=
  match present (Req.name (Req.body req)),
        present (Req.email (Req.body req)),
        present (Req.password (Req.body req)) with
  | Some name, Some email, Some password =>
      user <~ DB.addUser name email password [{| role := Diner |}] ;;
      auth <~ setAuth (Some user) ;;
      ret (res_json (JUserToken (Some user) auth))
  | _, _, _ =>
      ret {| status := 400;
             json := JMessage "name, email, and password are required" |}
  end.

(** The body of the login handler, with [DB.getUser] as a parameter. *)
Definition login_with
  (getUser : option string -> option string -> M (option User.t))
  (req : Req.t) : M Response :=
  user <~ getUser (Req.email (Req.body req)) (Req.password (Req.body req)) ;;
  auth <~ setAuth user ;;
  ret (res_json (JUserToken user auth)).

(** [authRouter.put('/')]: login. *)
Definition authRouter_put : Req.t -> M Response := login_with DB.getUser.

(** [authRouter.delete('/')]: logout. *)
Definition authRouter_delete (req : Req.t) : M Response :=
  authenticateToken req
    (clearAuth req ;;;
     ret (res_json (JMessage "logout successful"))).

(** ** franchiseRouter.js *)

(** [franchiseRouter.get('/:userId')] *)
Definition franchiseRouter_get_userId (req : Req.t) : M Response :=
  authenticateToken req
    (let userId := Req.userId (Req.params req) in
     user <~ req_user req ;;
     result <~ (if number_eqb (Num (User.id user)) userId || isRole user Admin
                then DB.getUserFranchises userId
                else ret []) ;;
     ret (res_json (JFranchises result))).

(** [franchiseRouter.post('/')] *)
Definition franchiseRouter_post (req : Req.t) : M Response :=
  authenticateToken req
    (user <~ req_user req ;;
     if negb (isRole user Admin)
     then throw (StatusCodeError "unable to create a franchise" 403)
     else
       franchise <~ DB.createFranchise (Req.name (Req.body req))
                                       (Req.admins (Req.body req)) ;;
       ret (res_json (JFranchise franchise))).

(** [franchiseRouter.delete('/:franchiseId')] *)
Definition franchiseRouter_delete (req : Req.t) : M Response :=
  let franchiseId := Req.franchiseId (Req.params req) in
  DB.deleteFranchise franchiseId ;;;
  ret (res_json (JMessage "franchise deleted")).

(** The test shared by the two store handlers:
    [!franchise || (!req.user.isRole(Role.Admin) &&
                    !franchise.admins.some((admin) => admin.id === req.user.id))] *)
Definition store_denied (franchise : option Franchise.t) (req : Req.t) : M bool :=
  match franchise with
  | None => ret true
  | Some f =>
      user <~ req_user req ;;
      ret (negb (isRole user Admin)
           && negb (existsb (fun admin => Z.eqb (Admin.id admin) (User.id user))
                            (Franchise.admins f)))
  end.

(** [franchise.id] after the test has excluded [null]. *)
Definition franchise_id (franchise : option Franchise.t) : M Z :=
  match franchise with
  | Some f => ret (Franchise.id f)
  | None => throw (TypeError "Cannot read properties of null")
  end.

(** [franchiseRouter.post('/:franchiseId/store')] *)
Definition franchiseRouter_post_store (req : Req.t) : M Response :=
  authenticateToken req
    (let franchiseId := Req.franchiseId (Req.params req) in
     franchise <~ DB.getFranchise franchiseId ;;
     denied <~ store_denied franchise req ;;
     if denied
     then throw (StatusCodeError "unable to create a store" 403)
     else
       id <~ franchise_id franchise ;;
       store <~ DB.createStore id (Req.name (Req.body req)) ;;
       ret (res_json (JStore store))).

(** [franchiseRouter.delete('/:franchiseId/store/:storeId')] *)
Definition franchiseRouter_delete_store (req : Req.t) : M Response :=
  authenticateToken req
    (let franchiseId := Req.franchiseId (Req.params req) in
     franchise <~ DB.getFranchise franchiseId ;;
     denied <~ store_denied franchise req ;;
     if denied
     then throw (StatusCodeError "unable to delete a store" 403)
     else
       let storeId := Req.storeId (Req.params req) in
       DB.deleteStore franchiseId storeId ;;;
       ret (res_json (JMessage "store deleted"))).

(** ** userRouter.js *)

(** [userRouter.get('/me')] *)
Definition userRouter_get_me (req : Req.t) : M Response :=
  authenticateToken req
    (user <~ req_user req ;;
     ret (res_json (JUser user))).

(** [userRouter.put('/:userId')] *)
Definition userRouter_put (req : Req.t) : M Response :=
  authenticateToken req
    (let userId := Req.userId (Req.params req) in
     user <~ req_user req ;;
     if negb (number_eqb (Num (User.id user)) userId) && negb (isRole user Admin)
     then ret {| status := 403; json := JMessage "unauthorized" |}
     else
       updatedUser <~ DB.updateUser userId (Req.name (Req.body req))
                        (Req.email (Req.body req))
                        (Req.password (Req.body req)) ;;
       auth <~ setAuth (Some updatedUser) ;;
       ret (res_json (JUserToken (Some updatedUser) auth))).

(** [userRouter.delete('/:userId')] *)
Definition userRouter_delete (req : Req.t) : M Response :=
  authenticateToken req (ret (res_json (JMessage "not implemented"))).

(** [userRouter.get('/')] *)
Definition userRouter_get (req : Req.t) : M Response :=
  authenticateToken req (ret (res_json (JUsers "not implemented" [] false))).

(** ** The service *)

(** The routes of the three routers. The listing of all franchises,
    [franchiseRouter.get('/')], only reads and is left out. *)

Inductive Route : Type :=
  | POST_auth | PUT_auth | DELETE_auth
  | GET_franchise_userId | POST_franchise | DELETE_franchise
  | POST_store | DELETE_store
  | GET_user_me | PUT_user | DELETE_user | GET_user.

Definition route (r : Route) : Req.t -> M Response :=
  match r with
  | POST_auth => authRouter_post
  | PUT_auth => authRouter_put
  | DELETE_auth => authRouter_delete
  | GET_franchise_userId => franchiseRouter_get_userId
  | POST_franchise => franchiseRouter_post
  | DELETE_franchise => franchiseRouter_delete
  | POST_store => franchiseRouter_post_store
  | DELETE_store => franchiseRouter_delete_store
  | GET_user_me => userRouter_get_me
  | PUT_user => userRouter_put
  | DELETE_user => userRouter_delete
  | GET_user => userRouter_get
  end.

(** Modelled from the spec: the wiring of the application ([service.js])
    is not part of the sources. Authentication "runs once per inbound
    request, before any route-specific logic, and its result is attached
    to the request context". *)
Definition service (r : Route) (req : Req.t) : M Response :=
  req' <~ setAuthUser req ;;
  route r req'.



(** * Properties *)

(** ** Splitting and the hexadecimal encoding *)

(** [lacks sep s]: the character [sep] does not occur in [s]. *)
Fixpoint lacks (sep : ascii) (s : string) : bool :=
  match s with
  | EmptyString => true
  | String c rest => negb (Ascii.eqb c sep) && lacks sep rest
  end.

Lemma split_lacks sep s : lacks sep s = true -> split sep s = [s].
Proof.
  induction s as [|c s IH]; simpl; [done|].
  destruct (Ascii.eqb c sep); simpl; [done|].
  intros H. by rewrite (IH H).
Qed.

Lemma split_app sep a b :
  lacks sep a = true -> split sep (a +:+ String sep b) = a :: split sep b.
Proof.
  induction a as [|c a IH]; simpl.
  - intros _. by rewrite Ascii.eqb_refl.
  - destruct (Ascii.eqb c sep); simpl; [done|].
    intros H. by rewrite (IH H).
Qed.

Lemma split_app_sep sep a b :
  lacks sep a = true ->
  split sep (a +:+ String sep EmptyString +:+ b) = a :: split sep b.
Proof. apply split_app. Qed.

Lemma append_assoc (a b c : string) : (a +:+ b) +:+ c = a +:+ (b +:+ c).
Proof.
  induction a as [|x a IH]; [done|].
  change (String x ((a +:+ b) +:+ c) = String x (a +:+ (b +:+ c))).
  by rewrite IH.
Qed.

Lemma lacks_app sep a b : lacks sep (a +:+ b) = lacks sep a && lacks sep b.
Proof.
  induction a as [|c a IH]; simpl; [done|].
  rewrite IH. by destruct (Ascii.eqb c sep).
Qed.

Lemma hex_digit_plain b0 b1 b2 b3 :
  Ascii.eqb (hex_digit b0 b1 b2 b3) "." = false
  /\ Ascii.eqb (hex_digit b0 b1 b2 b3) " " = false.
Proof. by destruct b0, b1, b2, b3. Qed.

Lemma hex_lacks_dot s : lacks "." (hex s) = true.
Proof.
  induction s as [|[b0 b1 b2 b3 b4 b5 b6 b7] s IH]; simpl; [done|].
  destruct (hex_digit_plain b4 b5 b6 b7) as [-> _].
  destruct (hex_digit_plain b0 b1 b2 b3) as [-> _].
  done.
Qed.

Lemma hex_lacks_space s : lacks " " (hex s) = true.
Proof.
  induction s as [|[b0 b1 b2 b3 b4 b5 b6 b7] s IH]; simpl; [done|].
  destruct (hex_digit_plain b4 b5 b6 b7) as [_ ->].
  destruct (hex_digit_plain b0 b1 b2 b3) as [_ ->].
  done.
Qed.

Lemma unhex_hex_digit b0 b1 b2 b3 :
  unhex_digit (hex_digit b0 b1 b2 b3) = Some (b0, b1, b2, b3).
Proof. by destruct b0, b1, b2, b3. Qed.

Lemma unhex_hex s : unhex (hex s) = Some s.
Proof.
  induction s as [|[b0 b1 b2 b3 b4 b5 b6 b7] s IH]; [done|].
  cbn [hex unhex]. by rewrite !unhex_hex_digit, IH.
Qed.

Lemma Z_of_string_of_Z z : Z_of_string (string_of_Z z) = Some z.
Proof.
  unfold Z_of_string, string_of_Z.
  rewrite NilEmpty.isi. simpl. by rewrite DecimalZ.of_to.
Qed.

Lemma roles_of_string_of_roles rs : roles_of_string (string_of_roles rs) = Some rs.
Proof.
  induction rs as [|[r] rs IH]; simpl; [done|].
  rewrite IH. by destruct r.
Qed.

Lemma payload_of_signing_fields u :
  payload_of_fields (hex (string_of_Z (User.id u))) (hex (User.name u))
    (hex (User.email u)) (hex (string_of_roles (User.roles u))) = Some u.
Proof.
  unfold payload_of_fields.
  rewrite !unhex_hex. simpl.
  rewrite Z_of_string_of_Z, roles_of_string_of_roles. simpl.
  by destruct u.
Qed.

Lemma split_signing_input u sig :
  lacks "." sig = true ->
  split "." (signing_input u +:+ "." +:+ sig)
  = [hex (string_of_Z (User.id u)); hex (User.name u); hex (User.email u);
     hex (string_of_roles (User.roles u)); sig].
Proof.
  intros Hsig. unfold signing_input. simpl String.concat.
  rewrite !append_assoc.
  rewrite !split_app_sep by apply hex_lacks_dot.
  by rewrite split_lacks.
Qed.


(** ** Tokens *)

(** The token that [jwt.sign] makes for [u] under [config.jwtSecret]. *)
Definition token_of (u : User.t) : string :=
  signing_input u +:+ "." +:+ hex (hmac jwtSecret (signing_input u)).

Lemma jwt_sign_token u : jwt_sign (Some u) jwtSecret = inr (token_of u).
Proof. done. Qed.

Lemma jwt_verify_token u : jwt_verify (token_of u) jwtSecret = inr u.
Proof.
  unfold jwt_verify, token_of.
  rewrite split_signing_input by apply hex_lacks_dot.
  fold (signing_input u).
  by rewrite String.eqb_refl, payload_of_signing_fields.
Qed.

Lemma token_of_inj u u' : token_of u = token_of u' -> u = u'.
Proof.
  intros H. pose proof (jwt_verify_token u) as Hu.
  rewrite H, jwt_verify_token in Hu. congruence.
Qed.

Lemma token_lacks_space u : lacks " " (token_of u) = true.
Proof.
  unfold token_of, signing_input. simpl String.concat.
  by rewrite !lacks_app, !hex_lacks_space.
Qed.

Lemma truthy_app_cons a c b : truthy (a +:+ String c b) = true.
Proof. by destruct a. Qed.

Lemma truthy_app_sep a c b : truthy (a +:+ String c EmptyString +:+ b) = true.
Proof. apply truthy_app_cons. Qed.

Lemma token_truthy u : truthy (token_of u) = true.
Proof. unfold token_of. apply truthy_app_cons. Qed.

(** ** Reading the header *)

Definition with_header (h : string) (p : Req.params_t) (b : Req.body_t) : Req.t :=
  Req.incoming (Some h) p b.

Lemma readAuthToken_second scheme T p b :
  lacks " " scheme = true -> lacks " " T = true ->
  readAuthToken (with_header (scheme +:+ " " +:+ T) p b) = Some T.
Proof.
  intros Hs HT. unfold readAuthToken, with_header. cbn [Req.authorization Req.incoming].
  rewrite truthy_app_sep.
  by rewrite split_app_sep, split_lacks.
Qed.

Lemma readAuthToken_bearer T p b :
  lacks " " T = true ->
  readAuthToken (with_header ("Bearer " +:+ T) p b) = Some T.
Proof. apply (readAuthToken_second "Bearer" T p b eq_refl). Qed.

(** ** The authentication middleware *)

Definition logged (T : string) (w : World) : World :=
  {| db := db w; calls := calls w ++ [IsLoggedIn T] |}.

(** What [setAuthUser] does, case by case. *)
Lemma setAuthUser_unfold req w :
  setAuthUser req w =
  match readAuthToken req with
  | Some T =>
      if truthy T then
        if bool_decide (is_Some (auth (db w) !! T)) then
          match jwt_verify T jwtSecret with
          | inr u => (inr (Req.set_user req (Some u)), logged T w)
          | inl _ => (inr (Req.set_user req None), logged T w)
          end
        else (inr req, logged T w)
      else (inr req, w)
  | None => (inr req, w)
  end.
Proof.
  unfold setAuthUser.
  destruct (readAuthToken req) as [T|]; [|done].
  destruct (truthy T); [|done].
  unfold try_catch, bind, DB.isLoggedIn, call, get_db, ret, lift, logged. simpl.
  destruct (bool_decide _); [|done].
  by destruct (jwt_verify T jwtSecret).
Qed.

(** The identity attached to the request once [setAuthUser] has run:
    [Some u] for an authenticated request, [None] for Anonymous. *)
Definition identity_after (req : Req.t) (w : World) : option User.t :=
  match fst (setAuthUser req w) with
  | inr req' => Req.user req'
  | inl _ => None
  end.

Lemma setAuthUser_returns req w :
  exists req', fst (setAuthUser req w) = inr req'.
Proof.
  rewrite setAuthUser_unfold.
  repeat case_match; simpl; eauto.
Qed.

Lemma setAuthUser_db req w : db (snd (setAuthUser req w)) = db w.
Proof.
  rewrite setAuthUser_unfold.
  by repeat case_match.
Qed.

Lemma identity_after_Some req w u :
  Req.user req = None ->
  identity_after req w = Some u ->
  exists T, readAuthToken req = Some T
            /\ is_Some (auth (db w) !! T)
            /\ jwt_verify T jwtSecret = inr u.
Proof.
  intros Hreq. unfold identity_after. rewrite setAuthUser_unfold.
  destruct (readAuthToken req) as [T|]; [|simpl; congruence].
  destruct (truthy T); [|simpl; congruence].
  case_bool_decide as Hin; [|simpl; congruence].
  destruct (jwt_verify T jwtSecret) as [e|u'] eqn:Hv; simpl; [congruence|].
  intros [= ->]. eauto.
Qed.

Lemma identity_after_inactive req w T :
  Req.user req = None ->
  readAuthToken req = Some T ->
  auth (db w) !! T = None ->
  setAuthUser req w = (inr req, if truthy T then logged T w else w).
Proof.
  intros Hreq HT Hnone. rewrite setAuthUser_unfold, HT.
  destruct (truthy T); [|done].
  rewrite bool_decide_eq_false_2; [done|].
  rewrite Hnone. by intros [? ?].
Qed.

Lemma identity_after_active req w T u :
  readAuthToken req = Some T ->
  truthy T = true ->
  is_Some (auth (db w) !! T) ->
  jwt_verify T jwtSecret = inr u ->
  setAuthUser req w = (inr (Req.set_user req (Some u)), logged T w).
Proof.
  intros HT Ht Hin Hv. rewrite setAuthUser_unfold, HT, Ht, Hv.
  by rewrite bool_decide_eq_true_2.
Qed.

(** C1. A request is authenticated only if its token has an active session
    record and verifies; a token whose session record was revoked by
    [DB.logoutUser] yields Anonymous whether or not it still verifies. *)
Theorem token_honored_only_with_session_and_signature :
  (forall req w u,
      Req.user req = None ->
      identity_after req w = Some u ->
      exists T, readAuthToken req = Some T
                /\ fst (DB.isLoggedIn T w) = inr true
                /\ jwt_verify T jwtSecret = inr u)
  /\ (forall req w T,
        Req.user req = None ->
        readAuthToken req = Some T ->
        identity_after req (snd (DB.logoutUser T w)) = None).
Proof.
  split.
  - intros req w u Hreq Hid.
    destruct (identity_after_Some req w u Hreq Hid) as (T & HT & Hin & Hv).
    exists T. split; [done|]. split; [|done].
    unfold DB.isLoggedIn, bind, call, get_db, ret. simpl.
    by rewrite bool_decide_eq_true_2.
  - intros req w T Hreq HT. unfold identity_after.
    rewrite (identity_after_inactive req _ T Hreq HT); [done|].
    unfold DB.logoutUser, bind, call, get_db, put_db. simpl.
    apply lookup_delete_eq.
Qed.

Lemma identity_after_unfold req w :
  identity_after req w =
  match readAuthToken req with
  | Some T =>
      if truthy T && bool_decide (is_Some (auth (db w) !! T)) then
        match jwt_verify T jwtSecret with
        | inr u => Some u
        | inl _ => None
        end
      else Req.user req
  | None => Req.user req
  end.
Proof.
  unfold identity_after. rewrite setAuthUser_unfold.
  destruct (readAuthToken req) as [T|]; [|done].
  destruct (truthy T); [|done].
  destruct (bool_decide _); [|done].
  by destruct (jwt_verify T jwtSecret).
Qed.

Lemma readAuthToken_no_space word p b :
  lacks " " word = true -> readAuthToken (with_header word p b) = None.
Proof.
  intros H. unfold readAuthToken, with_header. cbn [Req.authorization Req.incoming].
  destruct (truthy word); [|done].
  by rewrite split_lacks.
Qed.

(** C3, as the code has it. [readAuthToken] takes the second of the pieces
    of the header between spaces and never looks at the first. Without a
    header, with an empty header or with a header that has no second piece
    or an empty one, the request stays Anonymous; [setAuthUser] never
    throws, whatever the header; and [word token] is read like
    [Bearer token] whatever [word] is. *)
Theorem header_scheme_not_inspected :
  (forall req w, exists req', fst (setAuthUser req w) = inr req')
  /\ (forall p b w,
        setAuthUser (Req.incoming None p b) w = (inr (Req.incoming None p b), w))
  /\ (forall req w,
        readAuthToken req = None \/ readAuthToken req = Some EmptyString ->
        setAuthUser req w = (inr req, w))
  /\ (forall word p b,
        lacks " " word = true -> readAuthToken (with_header word p b) = None)
  /\ (forall word T p b w,
        lacks " " word = true -> lacks " " T = true ->
        readAuthToken (with_header (word +:+ " " +:+ T) p b) = Some T
        /\ identity_after (with_header (word +:+ " " +:+ T) p b) w
           = identity_after (with_header ("Bearer " +:+ T) p b) w).
Proof.
  split; [apply setAuthUser_returns|].
  split; [done|].
  split.
  { intros req w [H|H]; rewrite setAuthUser_unfold, H; done. }
  split; [apply readAuthToken_no_space|].
  intros word T p b w Hw HT.
  split; [by apply readAuthToken_second|].
  rewrite !identity_after_unfold.
  rewrite (readAuthToken_second word T p b Hw HT).
  by rewrite (readAuthToken_bearer T p b HT).
Qed.

(** ** Issuing tokens *)

Definition record_session (T : string) (userId : Z) (w : World) : World :=
  {| db := {| users := users (db w); auth := <[T := userId]> (auth (db w));
              franchises := franchises (db w); nextId := nextId (db w) |};
     calls := calls w ++ [LoginUser userId T] |}.

Lemma setAuth_user u w :
  setAuth (Some u) w = (inr (token_of u), record_session (token_of u) (User.id u) w).
Proof. done. Qed.

Lemma setAuth_null w :
  setAuth None w = (inl (JsonWebTokenError "Expected payload to be a plain object"), w).
Proof. done. Qed.

(** C8. The token issued for a user decodes to that very user: all of id,
    name, e-mail and roles come back; and the request that carries the
    token after [setAuth] is given this user as [req.user]. *)
Theorem token_round_trip (u : User.t) (w : World) (p : Req.params_t) (b : Req.body_t) :
  exists T,
    jwt_sign (Some u) jwtSecret = inr T
    /\ jwt_verify T jwtSecret = inr u
    /\ fst (setAuth (Some u) w) = inr T
    /\ identity_after (with_header ("Bearer " +:+ T) p b) (snd (setAuth (Some u) w))
       = Some u.
Proof.
  exists (token_of u).
  split; [done|]. split; [apply jwt_verify_token|]. split; [done|].
  rewrite identity_after_unfold.
  rewrite (readAuthToken_bearer _ p b (token_lacks_space u)).
  rewrite token_truthy, jwt_verify_token, setAuth_user. simpl.
  rewrite bool_decide_eq_true_2; [done|].
  rewrite lookup_insert_eq. eauto.
Qed.

(** ** Login *)

Lemma getUser_unfold email password w :
  DB.getUser email password w
  = (inr (UserRow.user <$>
            List.find (DB.credentials_match email password) (users (db w))),
     {| db := db w; calls := calls w ++ [GetUser email password] |}).
Proof. done. Qed.

Lemma login_with_unfold getUser req w :
  login_with getUser req w =
  match getUser (Req.email (Req.body req)) (Req.password (Req.body req)) w with
  | (inr (Some u), w1) =>
      (inr (res_json (JUserToken (Some u) (token_of u))),
       record_session (token_of u) (User.id u) w1)
  | (inr None, w1) =>
      (inl (JsonWebTokenError "Expected payload to be a plain object"), w1)
  | (inl e, w1) => (inl e, w1)
  end.
Proof.
  unfold login_with, bind.
  by destruct (getUser _ _ w) as [[e|[u|]] w1].
Qed.

(** C4, as the code has it. The login handler has no answer of its own
    for a failed lookup. When the lookup of the e-mail and password gives
    [null], signing the [null] user throws an exception that carries no
    status code; when the lookup throws, its error is the outcome. In both
    cases the handler writes nothing after the lookup, so it creates no
    session record. When the lookup gives a user, the answer holds the
    token signed for that user and the session record of the token is in
    the database. This holds whatever [DB.getUser] is. *)
Theorem login_null_user_throws_without_session
  (getUser : option string -> option string -> M (option User.t))
  (req : Req.t) (w : World) :
  let lookup :=
    getUser (Req.email (Req.body req)) (Req.password (Req.body req)) w in
  let login := login_with getUser req w in
  (fst lookup = inr None ->
   login = (inl (JsonWebTokenError "Expected payload to be a plain object"),
            snd lookup))
  /\ (forall e, fst lookup = inl e -> login = (inl e, snd lookup))
  /\ (forall u,
        fst lookup = inr (Some u) ->
        exists T,
          jwt_sign (Some u) jwtSecret = inr T
          /\ login = (inr {| status := 200; json := JUserToken (Some u) T |},
                      record_session T (User.id u) (snd lookup))
          /\ auth (db (snd login)) !! T = Some (User.id u)
          /\ fst (DB.isLoggedIn T (snd login)) = inr true).
Proof.
  intros lookup login. subst login. rewrite login_with_unfold. fold lookup.
  destruct lookup as [[e|[u|]] w1]; cbn [fst snd].
  - split; [done|]. split; [by intros e' [= <-]|done].
  - split; [done|]. split; [done|]. intros u' [= <-].
    exists (token_of u). split; [done|]. split; [done|].
    unfold record_session, DB.isLoggedIn, bind, call, get_db, ret.
    cbn [db auth fst snd].
    rewrite bool_decide_eq_true_2; rewrite lookup_insert_eq; eauto.
  - split; [done|]. split; [done|]. by intros u [=].
Qed.

(** ** Logout *)

Definition unauthorized : Response :=
  {| status := 401; json := JMessage "unauthorized" |}.

Definition revoked (T : string) (w : World) : World :=
  {| db := {| users := users (db w); auth := delete T (auth (db w));
              franchises := franchises (db w); nextId := nextId (db w) |};
     calls := calls w ++ [LogoutUser T] |}.

Lemma clearAuth_unfold req w :
  clearAuth req w =
  match readAuthToken req with
  | Some T => if truthy T then (inr tt, revoked T w) else (inr tt, w)
  | None => (inr tt, w)
  end.
Proof.
  unfold clearAuth.
  destruct (readAuthToken req) as [T|]; [|done].
  by destruct (truthy T).
Qed.

Lemma service_unfold r req w :
  service r req w =
  match setAuthUser req w with
  | (inr req', w') => route r req' w'
  | (inl e, w') => (inl e, w')
  end.
Proof. unfold service, bind. by destruct (setAuthUser req w) as [[e|req'] w']. Qed.

Lemma authenticateToken_anonymous req next w :
  Req.user req = None -> authenticateToken req next w = (inr unauthorized, w).
Proof. intros H. unfold authenticateToken. by rewrite H. Qed.

Lemma authenticateToken_user req next u :
  Req.user req = Some u -> authenticateToken req next = next.
Proof. intros H. unfold authenticateToken. by rewrite H. Qed.

(** The logout route on a request that [setAuthUser] left anonymous. *)
Lemma logout_anonymous req w :
  Req.user req = None ->
  authRouter_delete req w = (inr unauthorized, w).
Proof. apply authenticateToken_anonymous. Qed.

(** The logout route on a request that [setAuthUser] authenticated. *)
Lemma logout_authenticated req u T w :
  readAuthToken req = Some T -> truthy T = true ->
  authRouter_delete (Req.set_user req (Some u)) w
  = (inr (res_json (JMessage "logout successful")), revoked T w).
Proof.
  intros HT Ht. unfold authRouter_delete.
  rewrite (authenticateToken_user _ _ u) by done.
  unfold bind. rewrite clearAuth_unfold.
  change (readAuthToken (Req.set_user req (Some u))) with (readAuthToken req).
  by rewrite HT, Ht.
Qed.

(** The ways a logout request can go. *)
Lemma service_logout_cases req w :
  Req.user req = None ->
  (identity_after req w = None
   /\ fst (service DELETE_auth req w) = inr unauthorized
   /\ db (snd (service DELETE_auth req w)) = db w)
  \/ (exists T u, readAuthToken req = Some T
                 /\ identity_after req w = Some u
                 /\ service DELETE_auth req w
                    = (inr (res_json (JMessage "logout successful")),
                       revoked T (logged T w))).
Proof.
  intros Hreq. rewrite service_unfold, identity_after_unfold, setAuthUser_unfold.
  destruct (readAuthToken req) as [T|] eqn:HT;
    [|left; by rewrite logout_anonymous].
  destruct (truthy T) eqn:Ht;
    [|left; by rewrite logout_anonymous].
  destruct (bool_decide _); cbn [andb];
    [|left; by rewrite logout_anonymous].
  destruct (jwt_verify T jwtSecret) as [e|u].
  - left. by rewrite logout_anonymous.
  - right. exists T, u. split; [done|]. split; [done|].
    simpl route. by apply logout_authenticated.
Qed.

Lemma identity_after_db req w w' :
  db w = db w' -> identity_after req w = identity_after req w'.
Proof. intros H. rewrite !identity_after_unfold. by rewrite H. Qed.

Lemma revoked_inactive T w : auth (db (revoked T w)) !! T = None.
Proof. apply lookup_delete_eq. Qed.

Lemma identity_after_revoked req T w :
  Req.user req = None -> readAuthToken req = Some T ->
  identity_after req (revoked T w) = None.
Proof.
  intros Hreq HT. unfold identity_after.
  by rewrite (identity_after_inactive req _ T Hreq HT (revoked_inactive T w)).
Qed.

Lemma logout_without_identity req w :
  Req.user req = None -> identity_after req w = None ->
  fst (service DELETE_auth req w) = inr unauthorized
  /\ db (snd (service DELETE_auth req w)) = db w.
Proof.
  intros Hreq Hid.
  destruct (service_logout_cases req w Hreq) as [(_ & H)|(T & u & _ & Hu & _)];
    [done|congruence].
Qed.

(** C6, as the code has it. The logout route is guarded by
    [authenticateToken]: with a token whose session record is absent the
    request is answered 401 and the database is left as it was, and of two
    logouts in a row with the same header the second is always answered
    401 and writes nothing. No logout request throws. The deletion itself,
    [clearAuth], gives the same database whether it runs once or twice. *)
Theorem second_logout_is_unauthorized (req : Req.t) (w : World) :
  Req.user req = None ->
  let first := service DELETE_auth req w in
  let second := service DELETE_auth req (snd first) in
  (exists resp, fst first = inr resp)
  /\ fst second = inr unauthorized
  /\ db (snd second) = db (snd first)
  /\ (forall T, readAuthToken req = Some T -> auth (db w) !! T = None ->
             fst first = inr unauthorized /\ db (snd first) = db w)
  /\ db (snd (clearAuth req (snd (clearAuth req w)))) = db (snd (clearAuth req w)).
Proof.
  intros Hreq first second.
  assert (Hid : identity_after req (snd first) = None).
  { subst first.
    destruct (service_logout_cases req w Hreq)
      as [(Hid & _ & Hdb)|(T & u & HT & _ & ->)].
    - by rewrite (identity_after_db req _ w Hdb).
    - by apply identity_after_revoked. }
  split.
  { subst first.
    destruct (service_logout_cases req w Hreq)
      as [(_ & -> & _)|(T & u & _ & _ & ->)]; eauto. }
  split; [by apply logout_without_identity|].
  split; [by apply logout_without_identity|].
  split.
  - intros T HT Hnone. subst first.
    apply logout_without_identity; [done|].
    unfold identity_after.
    by rewrite (identity_after_inactive req w T Hreq HT Hnone).
  - rewrite !clearAuth_unfold.
    destruct (readAuthToken req) as [T|]; [|done].
    destruct (truthy T); [|done].
    cbn [snd db revoked auth]. f_equal. apply delete_delete_eq.
Qed.

(** ** Listing a user's franchises *)

Lemma number_eqb_eq a U : number_eqb (Num a) U = true <-> U = Num a.
Proof.
  destruct U as [|z]; simpl; [done|].
  rewrite Z.eqb_eq. split; congruence.
Qed.

Lemma number_eqb_neq a U : number_eqb (Num a) U = false <-> U <> Num a.
Proof.
  rewrite <- number_eqb_eq. by destruct (number_eqb (Num a) U).
Qed.

(** C10. An authenticated requester who is neither the user whose
    franchises are asked for nor an admin is answered with status 200 and
    the empty list; the handler makes no call to the database. *)
Theorem foreign_franchise_list_is_empty (req : Req.t) (w : World) (I : User.t) :
  Req.user req = Some I ->
  Req.userId (Req.params req) <> Num (User.id I) ->
  isRole I Admin = false ->
  franchiseRouter_get_userId req w
  = (inr {| status := 200; json := JFranchises [] |}, w).
Proof.
  intros Hreq Hne Hrole. unfold franchiseRouter_get_userId.
  rewrite (authenticateToken_user _ _ I) by done.
  unfold bind, req_user. rewrite Hreq. cbn [ret].
  apply number_eqb_neq in Hne. by rewrite Hne, Hrole.
Qed.

(** ** Updating a user *)

Definition forbidden : Response :=
  {| status := 403; json := JMessage "unauthorized" |}.

Definition update_persisted (U : number) (n e p : option string) (w : World)
  : World :=
  {| db := {| users := map (fun r' => if DB.has_id U r'
                                      then DB.update_row n e p r' else r')
                           (users (db w));
              auth := auth (db w); franchises := franchises (db w);
              nextId := nextId (db w) |};
     calls := calls w ++ [UpdateUser U n e p] |}.

Lemma updateUser_unfold U n e p w :
  DB.updateUser U n e p w =
  match List.find (DB.has_id U) (users (db w)) with
  | Some r => (inr (UserRow.user (DB.update_row n e p r)), update_persisted U n e p w)
  | None => (inl (StatusCodeError "unknown user" 404),
             {| db := db w; calls := calls w ++ [UpdateUser U n e p] |})
  end.
Proof.
  unfold DB.updateUser, bind, call, get_db. cbn [db].
  by destruct (List.find _ _).
Qed.

Lemma find_update_row U n e p rows r :
  List.find (DB.has_id U) rows = Some r ->
  List.find (DB.has_id U)
    (map (fun r' => if DB.has_id U r' then DB.update_row n e p r' else r') rows)
  = Some (DB.update_row n e p r).
Proof.
  induction rows as [|x rows IH]; [done|].
  cbn [List.find map]. destruct (DB.has_id U x) eqn:Hx.
  - intros [= ->]. change (DB.has_id U (DB.update_row n e p r)) with (DB.has_id U r).
    by rewrite Hx.
  - rewrite Hx. apply IH.
Qed.

(** The update route once the self-or-admin test is known. *)
Lemma userRouter_put_unfold req w I :
  Req.user req = Some I ->
  let U := Req.userId (Req.params req) in
  let n := Req.name (Req.body req) in
  let e := Req.email (Req.body req) in
  let p := Req.password (Req.body req) in
  userRouter_put req w =
  if negb (number_eqb (Num (User.id I)) U) && negb (isRole I Admin)
  then (inr forbidden, w)
  else match List.find (DB.has_id U) (users (db w)) with
       | Some r =>
           let u' := UserRow.user (DB.update_row n e p r) in
           (inr (res_json (JUserToken (Some u') (token_of u'))),
            record_session (token_of u') (User.id u') (update_persisted U n e p w))
       | None => (inl (StatusCodeError "unknown user" 404),
                  {| db := db w; calls := calls w ++ [UpdateUser U n e p] |})
       end.
Proof.
  intros Hreq U n e p. unfold userRouter_put.
  rewrite (authenticateToken_user _ _ I) by done.
  fold U n e p. unfold bind at 1. unfold req_user. rewrite Hreq. cbn [ret].
  destruct (negb _ && negb _); [done|].
  unfold bind. rewrite updateUser_unfold.
  destruct (List.find _ _); [|done].
  by rewrite setAuth_user.
Qed.

(** C7. With [I] the authenticated user and [U] the user id of the route,
    the update is let through exactly when [U] is [I]'s id or [I] is an
    admin: then [DB.updateUser] is called, and when the row exists the
    answer carries the updated user, whatever franchises [I] administers;
    otherwise the answer is 403 and neither the database nor the list of
    database calls changes. *)
Theorem update_user_self_or_admin (req : Req.t) (w : World) (I : User.t) :
  Req.user req = Some I ->
  let U := Req.userId (Req.params req) in
  let n := Req.name (Req.body req) in
  let e := Req.email (Req.body req) in
  let p := Req.password (Req.body req) in
  (U = Num (User.id I) \/ isRole I Admin = true ->
   (exists rest,
       calls (snd (userRouter_put req w)) = calls w ++ UpdateUser U n e p :: rest)
   /\ (forall r,
         List.find (DB.has_id U) (users (db w)) = Some r ->
         let u' := UserRow.user (DB.update_row n e p r) in
         fst (userRouter_put req w)
         = inr {| status := 200; json := JUserToken (Some u') (token_of u') |}
         /\ List.find (DB.has_id U) (users (db (snd (userRouter_put req w))))
            = Some (DB.update_row n e p r)))
  /\ (~ (U = Num (User.id I) \/ isRole I Admin = true) ->
      userRouter_put req w = (inr forbidden, w)).
Proof.
  intros Hreq U n e p.
  rewrite (userRouter_put_unfold req w I Hreq). fold U n e p.
  destruct (number_eqb (Num (User.id I)) U) eqn:HU;
    destruct (isRole I Admin) eqn:HA; cbn [negb andb].
  4: { split; [|done]. apply number_eqb_neq in HU. intros [?|?]; congruence. }
  all: split; [intros _|intros []; rewrite <- number_eqb_eq; auto].
  all: destruct (List.find _ _) as [r|] eqn:Hr; cbn [fst snd].
  all: split; [|intros r' [= <-] || done].
  all: try (eexists; cbn [calls record_session update_persisted];
            rewrite <- app_assoc; done).
  all: try (by eexists).
  all: split; [done|]; by apply find_update_row.
Qed.

(** ** Creating and deleting stores *)

Definition franchise_read (fid : number) (w : World) : World :=
  {| db := db w; calls := calls w ++ [GetFranchise fid] |}.

Lemma getFranchise_unfold fid w :
  DB.getFranchise fid w
  = (inr (List.find (DB.is_franchise fid) (franchises (db w))), franchise_read fid w).
Proof. done. Qed.

Lemma existsb_admin_id i (l : list Admin.t) :
  existsb (fun admin => Z.eqb (Admin.id admin) i) l = true <-> i ∈ map Admin.id l.
Proof.
  induction l as [|a l IH]; cbn [existsb map].
  - split; [done|]. intros H. by apply elem_of_nil in H.
  - rewrite orb_true_iff, IH, elem_of_cons, Z.eqb_eq.
    split; (intros [H|H]; [left|right]); congruence.
Qed.

Lemma store_denied_unfold req I f w :
  Req.user req = Some I ->
  store_denied (Some f) req w
  = (inr (negb (isRole I Admin)
          && negb (existsb (fun admin => Z.eqb (Admin.id admin) (User.id I))
                           (Franchise.admins f))), w).
Proof. intros H. unfold store_denied, req_user, bind. by rewrite H. Qed.

Lemma post_store_unfold req w I f :
  Req.user req = Some I ->
  let fid := Req.franchiseId (Req.params req) in
  List.find (DB.is_franchise fid) (franchises (db w)) = Some f ->
  let w1 := franchise_read fid w in
  let create := DB.createStore (Franchise.id f) (Req.name (Req.body req)) w1 in
  franchiseRouter_post_store req w =
  if negb (isRole I Admin)
     && negb (existsb (fun admin => Z.eqb (Admin.id admin) (User.id I))
                      (Franchise.admins f))
  then (inl (StatusCodeError "unable to create a store" 403), w1)
  else (inr {| status := 200;
               json := JStore {| Store.id := nextId (db w);
                                 Store.name := default "" (Req.name (Req.body req));
                                 Store.totalRevenue := 0 |} |},
        snd create).
Proof.
  intros Hreq fid Hf w1 create. unfold franchiseRouter_post_store.
  rewrite (authenticateToken_user _ _ I) by done. fold fid.
  unfold bind at 1. rewrite getFranchise_unfold, Hf. fold w1.
  unfold bind at 1. rewrite (store_denied_unfold req I f w1 Hreq).
  by destruct (negb _ && negb _).
Qed.

Lemma delete_store_unfold req w I f :
  Req.user req = Some I ->
  let fid := Req.franchiseId (Req.params req) in
  List.find (DB.is_franchise fid) (franchises (db w)) = Some f ->
  let w1 := franchise_read fid w in
  let delete := DB.deleteStore fid (Req.storeId (Req.params req)) w1 in
  franchiseRouter_delete_store req w =
  if negb (isRole I Admin)
     && negb (existsb (fun admin => Z.eqb (Admin.id admin) (User.id I))
                      (Franchise.admins f))
  then (inl (StatusCodeError "unable to delete a store" 403), w1)
  else (inr {| status := 200; json := JMessage "store deleted" |}, snd delete).
Proof.
  intros Hreq fid Hf w1 delete. unfold franchiseRouter_delete_store.
  rewrite (authenticateToken_user _ _ I) by done. fold fid.
  unfold bind at 1. rewrite getFranchise_unfold, Hf. fold w1.
  unfold bind at 1. rewrite (store_denied_unfold req I f w1 Hreq).
  by destruct (negb _ && negb _).
Qed.

(** C5. For an authenticated user [I] and a franchise with admins [S],
    creating and deleting a store go through exactly when [I] is an admin
    or [I]'s id is in [S]: then the database operation runs and the answer
    has status 200; otherwise both throw the 403 error and nothing is
    written. An admin passes whatever [S] is. *)
Theorem store_actions_admin_or_owner
  (req : Req.t) (w : World) (I : User.t) (f : Franchise.t) :
  Req.user req = Some I ->
  let fid := Req.franchiseId (Req.params req) in
  fst (DB.getFranchise fid w) = inr (Some f) ->
  let permitted :=
    isRole I Admin = true \/ User.id I ∈ map Admin.id (Franchise.admins f) in
  let w1 := franchise_read fid w in
  let create := DB.createStore (Franchise.id f) (Req.name (Req.body req)) w1 in
  let delete := DB.deleteStore fid (Req.storeId (Req.params req)) w1 in
  (permitted ->
   (exists store,
       fst create = inr store
       /\ franchiseRouter_post_store req w
          = (inr {| status := 200; json := JStore store |}, snd create))
   /\ franchiseRouter_delete_store req w
      = (inr {| status := 200; json := JMessage "store deleted" |}, snd delete))
  /\ (~ permitted ->
      franchiseRouter_post_store req w
      = (inl (StatusCodeError "unable to create a store" 403), w1)
      /\ franchiseRouter_delete_store req w
         = (inl (StatusCodeError "unable to delete a store" 403), w1)).
Proof.
  intros Hreq fid Hf permitted w1 create delete.
  rewrite getFranchise_unfold in Hf. cbn [fst] in Hf. injection Hf as Hf.
  rewrite (post_store_unfold req w I f Hreq Hf).
  rewrite (delete_store_unfold req w I f Hreq Hf).
  fold fid w1 create delete.
  subst permitted. rewrite <- existsb_admin_id.
  destruct (isRole I Admin); destruct (existsb _ _); cbn [negb andb].
  4: { split; [intros [?|?]; congruence|]. by intros _. }
  all: split; [intros _|intros []; auto].
  all: split; [by eexists|done].
Qed.

(** ** Re-issuing a token on update *)

(** C9. After a successful update made with token [T], the answer's token
    [T'] is the one signed for the updated user and its session record is
    in the database; every other session record is as before, [T]'s is
    still there, and afterwards both [T] and [T'] authenticate: [T] as the
    identity it had, [T'] as the updated user. *)
Theorem update_keeps_old_session
  (req : Req.t) (w w' : World) (T T' : string) (u' : User.t) :
  Req.user req = None ->
  readAuthToken req = Some T ->
  service PUT_user req w
  = (inr {| status := 200; json := JUserToken (Some u') T' |}, w') ->
  jwt_sign (Some u') jwtSecret = inr T'
  /\ auth (db w') !! T' = Some (User.id u')
  /\ (forall T0, T0 <> T' -> auth (db w') !! T0 = auth (db w) !! T0)
  /\ is_Some (auth (db w) !! T)
  /\ is_Some (auth (db w') !! T)
  /\ is_Some (identity_after req w)
  /\ identity_after req w' = identity_after req w
  /\ (forall p b, identity_after (with_header ("Bearer " +:+ T') p b) w' = Some u').
Proof.
  intros Hreq HT. rewrite service_unfold, setAuthUser_unfold, HT. cbn [route].
  assert (Hanon : forall w0 x, userRouter_put req w0 <> (inr (res_json x), w')).
  { intros w0 x. unfold userRouter_put.
    by rewrite authenticateToken_anonymous. }
  destruct (truthy T) eqn:Ht; [|intros H; by apply Hanon in H].
  case_bool_decide as Hin; [|intros H; by apply Hanon in H].
  destruct (jwt_verify T jwtSecret) as [err|I] eqn:Hv.
  { unfold userRouter_put. by rewrite authenticateToken_anonymous. }
  rewrite (userRouter_put_unfold (Req.set_user req (Some I)) (logged T w) I eq_refl).
  cbn [Req.params Req.body Req.set_user].
  destruct (negb _ && negb _); [done|].
  destruct (List.find _ _) as [r|]; [|done].
  cbv zeta. intros [= Hu HT' Hw].
  assert (HT'' : T' = token_of u') by (by rewrite <- HT', <- Hu).
  assert (Hauth : auth (db w') = <[T' := User.id u']> (auth (db w))).
  { by rewrite <- Hw, <- HT', <- Hu. }
  clear Hu HT' Hw. subst T'.
  assert (Hstill : is_Some (auth (db w') !! T)).
  { rewrite Hauth, lookup_insert. case_decide; eauto. }
  split; [done|].
  split; [rewrite Hauth; apply lookup_insert_eq|].
  split; [intros T0 HT0; rewrite Hauth; by apply lookup_insert_ne|].
  split; [done|]. split; [done|].
  split; [rewrite identity_after_unfold, HT, Ht, Hv, bool_decide_eq_true_2; eauto|].
  split.
  - rewrite !identity_after_unfold, HT, Ht, Hv.
    by rewrite !bool_decide_eq_true_2.
  - intros p b. rewrite identity_after_unfold.
    rewrite (readAuthToken_bearer _ p b (token_lacks_space u')).
    rewrite token_truthy, jwt_verify_token, Hauth.
    rewrite bool_decide_eq_true_2; [done|].
    rewrite lookup_insert_eq. eauto.
Qed.

(** ** Guards of the routes *)

(** Every route here but registration, login and the deletion of a
    franchise starts with [authenticateToken]: an anonymous request is
    answered 401 and nothing happens. *)
Lemma guarded_routes_reject_anonymous r req w :
  Req.user req = None ->
  r <> POST_auth -> r <> PUT_auth -> r <> DELETE_franchise ->
  route r req w = (inr unauthorized, w).
Proof.
  intros Hreq H1 H2 H3.
  destruct r; try done; by apply authenticateToken_anonymous.
Qed.

(** The deletion of a franchise reads neither [req.user] nor the header. *)
Lemma franchiseRouter_delete_unguarded req w :
  franchiseRouter_delete req w
  = (inr {| status := 200; json := JMessage "franchise deleted" |},
     snd (DB.deleteFranchise (Req.franchiseId (Req.params req)) w)).
Proof. done. Qed.

End Routers.

(** * Concrete runs *)

(** The users, the franchise and the store of the routers' documentation
    examples, and a toy signature function. *)
Definition sample_hmac (key message : string) : string := key +:+ message.

Definition sample_secret : string := "s".

Definition admin1 : User.t :=
  {| User.id := 1; User.name := "admin"; User.email := "a@jwt.com";
     User.roles := [{| role := Admin |}] |}.

Definition diner2 : User.t :=
  {| User.id := 2; User.name := "pizza diner"; User.email := "d@jwt.com";
     User.roles := [{| role := Diner |}] |}.

Definition franchisee4 : User.t :=
  {| User.id := 4; User.name := "pizza franchisee"; User.email := "f@jwt.com";
     User.roles := [{| role := Franchisee |}] |}.

Definition row_of (u : User.t) (password : string) : UserRow.t :=
  {| UserRow.id := User.id u; UserRow.name := User.name u;
     UserRow.email := User.email u; UserRow.password := password;
     UserRow.roles := User.roles u |}.

Definition pizzaPocket : Franchise.t :=
  {| Franchise.id := 1; Franchise.name := "pizzaPocket";
     Franchise.admins := [DB.admin_of_row (row_of franchisee4 "franchisee")];
     Franchise.stores :=
       [{| Store.id := 1; Store.name := "SLC"; Store.totalRevenue := 0 |}] |}.

Definition sample_users : list UserRow.t :=
  [row_of admin1 "admin"; row_of diner2 "diner"; row_of franchisee4 "franchisee"].

Definition db0 : DBState :=
  {| users := sample_users; auth := ∅; franchises := [pizzaPocket]; nextId := 5 |}.

Definition w0 : World := {| db := db0; calls := [] |}.

Definition no_body : Req.body_t :=
  {| Req.name := None; Req.email := None; Req.password := None; Req.admins := [] |}.

Definition params (userId franchiseId storeId : number) : Req.params_t :=
  {| Req.userId := userId; Req.franchiseId := franchiseId; Req.storeId := storeId |}.

Definition no_params : Req.params_t := params NaN NaN NaN.

(** The diner's token and the world after the diner has logged in. *)
Definition diner_token : string := token_of sample_hmac sample_secret diner2.

Definition w_diner : World :=
  snd (setAuth sample_hmac sample_secret (Some diner2) w0).

Definition bearer (T : string) (p : Req.params_t) (b : Req.body_t) : Req.t :=
  with_header ("Bearer " +:+ T) p b.

(** C2. An anonymous [DELETE /api/franchise/1] is answered 200 and the
    franchise is gone from the database, although the route is documented
    with [requiresAuth: true]; so is the same request from a logged-in
    diner, who is neither an admin nor an admin of the franchise. The
    anonymous request on the sibling route that creates a franchise is
    answered 401 and writes nothing. *)
Theorem anonymous_request_deletes_franchise :
  service sample_hmac sample_secret DELETE_franchise
    (Req.incoming None (params NaN (Num 1) NaN) no_body) w0
  = (inr {| status := 200; json := JMessage "franchise deleted" |},
     {| db := {| users := sample_users; auth := ∅; franchises := [];
                 nextId := 5 |};
        calls := [DeleteFranchise (Num 1)] |})
  /\ fst (service sample_hmac sample_secret DELETE_franchise
            (bearer diner_token (params NaN (Num 1) NaN) no_body) w_diner)
     = inr {| status := 200; json := JMessage "franchise deleted" |}
  /\ franchises (db (snd (service sample_hmac sample_secret DELETE_franchise
                            (bearer diner_token (params NaN (Num 1) NaN) no_body)
                            w_diner)))
     = []
  /\ service sample_hmac sample_secret POST_franchise
       (Req.incoming None no_params no_body) w0
     = (inr {| status := 401; json := JMessage "unauthorized" |}, w0).
Proof.
  split; [reflexivity|].
  split; [vm_compute; reflexivity|].
  split; [vm_compute; reflexivity|reflexivity].
Qed.

(** The diner's token verifies; it authenticates while its session record
    exists, and no longer once [DB.logoutUser] has removed the record. *)
Lemma revoked_token_is_anonymous :
  jwt_verify sample_hmac diner_token sample_secret = inr diner2
  /\ (exists T,
         readAuthToken (bearer diner_token no_params no_body) = Some T
         /\ fst (DB.isLoggedIn T w_diner) = inr true
         /\ jwt_verify sample_hmac T sample_secret = inr diner2)
  /\ identity_after sample_hmac sample_secret
       (bearer diner_token no_params no_body)
       (snd (DB.logoutUser diner_token w_diner)) = None.
Proof.
  split; [reflexivity|]. split.
  - apply (proj1 (token_honored_only_with_session_and_signature
                    sample_hmac sample_secret)
                 (bearer diner_token no_params no_body) w_diner diner2);
      reflexivity.
  - apply (proj2 (token_honored_only_with_session_and_signature
                    sample_hmac sample_secret)
                 (bearer diner_token no_params no_body) w_diner diner_token);
      reflexivity.
Defined.

(** A header whose first word is [Basic], not [Bearer], authenticates the
    diner all the same. *)
Lemma basic_scheme_is_honored :
  String.prefix "Bearer" ("Basic " +:+ diner_token) = false
  /\ identity_after sample_hmac sample_secret
       (with_header ("Basic " +:+ diner_token) no_params no_body) w_diner
     = Some diner2.
Proof. split; reflexivity. Defined.

Lemma header_scheme_witness :
  readAuthToken (with_header "Bearer" no_params no_body) = None
  /\ readAuthToken (with_header ("Basic" +:+ " " +:+ diner_token) no_params no_body)
     = Some diner_token
  /\ identity_after sample_hmac sample_secret
       (with_header ("Basic" +:+ " " +:+ diner_token) no_params no_body) w_diner
     = identity_after sample_hmac sample_secret
         (with_header ("Bearer " +:+ diner_token) no_params no_body) w_diner.
Proof.
  destruct (header_scheme_not_inspected sample_hmac sample_secret)
    as (_ & _ & _ & Hword & Hsecond).
  split; [apply Hword; reflexivity|].
  apply Hsecond; reflexivity.
Defined.

(** Login with the diner's e-mail and a wrong password. *)
Definition wrong_password : Req.t :=
  Req.incoming None no_params
    {| Req.name := None; Req.email := Some "d@jwt.com";
       Req.password := Some "wrong"; Req.admins := [] |}.

Definition right_password : Req.t :=
  Req.incoming None no_params
    {| Req.name := None; Req.email := Some "d@jwt.com";
       Req.password := Some "diner"; Req.admins := [] |}.

(** The lookup gives [null], and what the handler throws is not an error
    with a status code. *)
Lemma wrong_password_is_no_status_error :
  fst (DB.getUser (Some "d@jwt.com") (Some "wrong") w0) = inr None
  /\ ~ (exists message statusCode,
           fst (authRouter_put sample_hmac sample_secret wrong_password w0)
           = inl (StatusCodeError message statusCode)).
Proof.
  split; [reflexivity|].
  intros (message & statusCode & H). discriminate H.
Qed.

Lemma login_witness :
  (authRouter_put sample_hmac sample_secret wrong_password w0
   = (inl (JsonWebTokenError "Expected payload to be a plain object"),
      {| db := db0; calls := [GetUser (Some "d@jwt.com") (Some "wrong")] |}))
  /\ (exists T,
         jwt_sign sample_hmac (Some diner2) sample_secret = inr T
         /\ authRouter_put sample_hmac sample_secret right_password w0
            = (inr {| status := 200; json := JUserToken (Some diner2) T |},
               record_session T 2
                 {| db := db0;
                    calls := [GetUser (Some "d@jwt.com") (Some "diner")] |})
         /\ auth (db (snd (authRouter_put sample_hmac sample_secret
                             right_password w0))) !! T = Some 2
         /\ fst (DB.isLoggedIn T (snd (authRouter_put sample_hmac sample_secret
                                         right_password w0))) = inr true).
Proof.
  split.
  - apply (proj1 (login_null_user_throws_without_session
                    sample_hmac sample_secret DB.getUser wrong_password w0)).
    reflexivity.
  - apply (proj2 (proj2 (login_null_user_throws_without_session
                           sample_hmac sample_secret DB.getUser
                           right_password w0)) diner2).
    reflexivity.
Defined.

(** Requests as [setAuthUser] hands them to the routes. *)
Definition as_user (u : User.t) (p : Req.params_t) (b : Req.body_t) : Req.t :=
  {| Req.authorization := None; Req.params := p; Req.body := b;
     Req.user := Some u |}.

Definition store_body : Req.body_t :=
  {| Req.name := Some "Provo"; Req.email := None; Req.password := None;
     Req.admins := [] |}.

(** The admin, who is not in the admin set of the franchise, deletes its
    store; the diner is refused; the franchisee, who is in the set, creates
    a store. *)
Lemma store_actions_witness :
  franchiseRouter_delete_store
    (as_user admin1 (params NaN (Num 1) (Num 1)) no_body) w0
  = (inr {| status := 200; json := JMessage "store deleted" |},
     snd (DB.deleteStore (Num 1) (Num 1) (franchise_read (Num 1) w0)))
  /\ franchiseRouter_delete_store
       (as_user diner2 (params NaN (Num 1) (Num 1)) no_body) w0
     = (inl (StatusCodeError "unable to delete a store" 403),
        franchise_read (Num 1) w0)
  /\ (exists store,
         fst (DB.createStore 1 (Some "Provo") (franchise_read (Num 1) w0))
         = inr store
         /\ franchiseRouter_post_store
              (as_user franchisee4 (params NaN (Num 1) NaN) store_body) w0
            = (inr {| status := 200; json := JStore store |},
               snd (DB.createStore 1 (Some "Provo") (franchise_read (Num 1) w0)))).
Proof.
  split; [|split].
  - apply (proj1 (store_actions_admin_or_owner
                    (as_user admin1 (params NaN (Num 1) (Num 1)) no_body)
                    w0 admin1 pizzaPocket eq_refl eq_refl)).
    left. reflexivity.
  - apply (proj2 (store_actions_admin_or_owner
                    (as_user diner2 (params NaN (Num 1) (Num 1)) no_body)
                    w0 diner2 pizzaPocket eq_refl eq_refl)).
    intros [H|H]; [discriminate H|].
    apply list_elem_of_singleton in H. discriminate H.
  - apply (proj1 (store_actions_admin_or_owner
                    (as_user franchisee4 (params NaN (Num 1) NaN) store_body)
                    w0 franchisee4 pizzaPocket eq_refl eq_refl)).
    right. apply list_elem_of_singleton. reflexivity.
Defined.

(** The diner logs out, and logs out again with the same header: the
    second request is answered 401. *)
Lemma second_logout_is_rejected :
  fst (service sample_hmac sample_secret DELETE_auth
         (bearer diner_token no_params no_body) w_diner)
  = inr {| status := 200; json := JMessage "logout successful" |}
  /\ fst (service sample_hmac sample_secret DELETE_auth
            (bearer diner_token no_params no_body)
            (snd (service sample_hmac sample_secret DELETE_auth
                    (bearer diner_token no_params no_body) w_diner)))
     = inr {| status := 401; json := JMessage "unauthorized" |}.
Proof. split; vm_compute; reflexivity. Qed.

Lemma second_logout_witness :
  fst (service sample_hmac sample_secret DELETE_auth
         (bearer diner_token no_params no_body)
         (snd (service sample_hmac sample_secret DELETE_auth
                 (bearer diner_token no_params no_body) w_diner)))
  = inr unauthorized
  /\ db (snd (service sample_hmac sample_secret DELETE_auth
                (bearer diner_token no_params no_body)
                (snd (service sample_hmac sample_secret DELETE_auth
                        (bearer diner_token no_params no_body) w_diner))))
     = db (snd (service sample_hmac sample_secret DELETE_auth
                  (bearer diner_token no_params no_body) w_diner)).
Proof.
  destruct (second_logout_is_unauthorized sample_hmac sample_secret
              (bearer diner_token no_params no_body) w_diner eq_refl)
    as (_ & Hresp & Hdb & _).
  split; [exact Hresp|exact Hdb].
Defined.

Definition rename_body : Req.body_t :=
  {| Req.name := Some "diner"; Req.email := None; Req.password := None;
     Req.admins := [] |}.

(** The diner renames their own profile, and may not rename the
    franchisee's. *)
Lemma update_user_witness :
  (exists rest,
      calls (snd (userRouter_put sample_hmac sample_secret
                    (as_user diner2 (params (Num 2) NaN NaN) rename_body) w0))
      = UpdateUser (Num 2) (Some "diner") None None :: rest)
  /\ userRouter_put sample_hmac sample_secret
       (as_user diner2 (params (Num 4) NaN NaN) rename_body) w0
     = (inr forbidden, w0).
Proof.
  split.
  - apply (proj1 (update_user_self_or_admin sample_hmac sample_secret
                    (as_user diner2 (params (Num 2) NaN NaN) rename_body)
                    w0 diner2 eq_refl)).
    left. reflexivity.
  - apply (proj2 (update_user_self_or_admin sample_hmac sample_secret
                    (as_user diner2 (params (Num 4) NaN NaN) rename_body)
                    w0 diner2 eq_refl)).
    intros [H|H]; discriminate H.
Defined.

Definition renamed_diner : User.t :=
  {| User.id := 2; User.name := "diner"; User.email := "d@jwt.com";
     User.roles := [{| role := Diner |}] |}.

Definition w_renamed : World :=
  snd (service sample_hmac sample_secret PUT_user
         (bearer diner_token (params (Num 2) NaN NaN) rename_body) w_diner).

Lemma pair_with_snd {A B : Type} (x : A * B) (a : A) :
  fst x = a -> x = (a, snd x).
Proof. intros <-. by destruct x. Qed.

(** After the diner's update both the old and the new token authenticate. *)
Lemma update_keeps_old_session_witness :
  identity_after sample_hmac sample_secret
    (bearer diner_token (params (Num 2) NaN NaN) rename_body) w_renamed
  = Some diner2
  /\ identity_after sample_hmac sample_secret
       (bearer (token_of sample_hmac sample_secret renamed_diner)
               no_params no_body) w_renamed
     = Some renamed_diner.
Proof.
  assert (Hread : readAuthToken
                    (bearer diner_token (params (Num 2) NaN NaN) rename_body)
                  = Some diner_token) by (vm_compute; reflexivity).
  assert (Hrun : service sample_hmac sample_secret PUT_user
                   (bearer diner_token (params (Num 2) NaN NaN) rename_body)
                   w_diner
                 = (inr {| status := 200;
                           json := JUserToken (Some renamed_diner)
                                     (token_of sample_hmac sample_secret
                                               renamed_diner) |},
                    w_renamed))
    by (unfold w_renamed; apply pair_with_snd; vm_compute; reflexivity).
  destruct (update_keeps_old_session sample_hmac sample_secret
              (bearer diner_token (params (Num 2) NaN NaN) rename_body)
              w_diner w_renamed diner_token
              (token_of sample_hmac sample_secret renamed_diner) renamed_diner
              eq_refl Hread Hrun)
    as (_ & _ & _ & _ & _ & _ & Hold & Hnew).
  split; [rewrite Hold; vm_compute; reflexivity|apply Hnew].
Defined.

(** The diner asks for the franchisee's franchises. *)
Lemma foreign_franchise_list_witness :
  franchiseRouter_get_userId (as_user diner2 (params (Num 4) NaN NaN) no_body) w0
  = (inr {| status := 200; json := JFranchises [] |}, w0).
Proof.
  apply (foreign_franchise_list_is_empty
           (as_user diner2 (params (Num 4) NaN NaN) no_body) w0 diner2 eq_refl).
  - intros H. discriminate H.
  - reflexivity.
Defined.

(** * Further properties of the routers *)

Section MoreRouters.

Variable hmac : string -> string -> string.
Variable jwtSecret : string.

(** ** The authentication middleware, once more *)

(** X1. [setAuthUser] only reads: it never throws and never writes to the
    database, it makes at most one call, [DB.isLoggedIn] on the token of
    the header, and it hands on the request with nothing changed but
    [req.user]. *)
Theorem setAuthUser_only_reads (req : Req.t) (w : World) :
  exists req' w',
    setAuthUser hmac jwtSecret req w = (inr req', w')
    /\ Req.user req' = identity_after hmac jwtSecret req w
    /\ Req.authorization req' = Req.authorization req
    /\ Req.params req' = Req.params req
    /\ Req.body req' = Req.body req
    /\ db w' = db w
    /\ (calls w' = calls w
        \/ exists T, readAuthToken req = Some T
                     /\ calls w' = calls w ++ [IsLoggedIn T]).
Proof.
  unfold identity_after. rewrite setAuthUser_unfold.
  destruct (readAuthToken req) as [T|]; [|by eexists _, _; eauto 10].
  destruct (truthy T); [|by eexists _, _; eauto 10].
  destruct (bool_decide _); [|by eexists _, _; eauto 10].
  destruct (jwt_verify hmac T jwtSecret); eexists _, _; eauto 10.
Qed.

Lemma service_after_setAuthUser r req w :
  exists req' w',
    service hmac jwtSecret r req w = route hmac jwtSecret r req' w'
    /\ Req.user req' = identity_after hmac jwtSecret req w
    /\ Req.params req' = Req.params req
    /\ Req.body req' = Req.body req
    /\ readAuthToken req' = readAuthToken req
    /\ db w' = db w.
Proof.
  rewrite service_unfold. unfold identity_after. rewrite setAuthUser_unfold.
  destruct (readAuthToken req) as [T|] eqn:HT; [|by eexists _, _; eauto 10].
  destruct (truthy T); [|by eexists _, _; eauto 10].
  destruct (bool_decide _); [|by eexists _, _; eauto 10].
  destruct (jwt_verify hmac T jwtSecret); eexists _, _; eauto 10.
Qed.

(** ** Routes behind [authenticateToken] *)

Definition guarded (r : Route) : bool :=
  match r with
  | POST_auth | PUT_auth | DELETE_franchise => false
  | _ => true
  end.

(** X2. On every route that starts with [authenticateToken], a request
    whose header gives no identity is answered 401 and the database is
    left as it was. *)
Theorem no_identity_no_access (r : Route) (req : Req.t) (w : World) :
  guarded r = true ->
  identity_after hmac jwtSecret req w = None ->
  fst (service hmac jwtSecret r req w) = inr unauthorized
  /\ db (snd (service hmac jwtSecret r req w)) = db w.
Proof.
  intros Hr Hid.
  destruct (service_after_setAuthUser r req w)
    as (req' & w' & -> & Hu & _ & _ & _ & Hdb).
  rewrite Hid in Hu.
  rewrite guarded_routes_reject_anonymous; [done|done|..];
    by intros ->.
Qed.

(** X3. [GET /api/user/me] answers an authenticated request with exactly
    the identity that [setAuthUser] decoded from the token, and writes
    nothing. *)
Theorem me_returns_identity (req : Req.t) (w : World) (u : User.t) :
  identity_after hmac jwtSecret req w = Some u ->
  fst (service hmac jwtSecret GET_user_me req w)
  = inr {| status := 200; json := JUser u |}
  /\ db (snd (service hmac jwtSecret GET_user_me req w)) = db w.
Proof.
  intros Hid.
  destruct (service_after_setAuthUser GET_user_me req w)
    as (req' & w' & -> & Hu & _ & _ & _ & Hdb).
  rewrite Hid in Hu. cbn [route]. unfold userRouter_get_me.
  rewrite (authenticateToken_user _ _ u Hu).
  unfold bind, req_user. by rewrite Hu.
Qed.

Definition read_only (r : Route) : bool :=
  match r with
  | GET_franchise_userId | GET_user_me | DELETE_user | GET_user => true
  | _ => false
  end.

(** X4. The routes that list a user's franchises, return the current
    user, delete a user and list the users never write to the database,
    whatever the request; in particular [DELETE /api/user/:userId] removes
    no user, and none of them throws. *)
Theorem read_only_routes (r : Route) (req : Req.t) (w : World) :
  read_only r = true ->
  db (snd (service hmac jwtSecret r req w)) = db w
  /\ exists resp, fst (service hmac jwtSecret r req w) = inr resp.
Proof.
  intros Hr.
  destruct (service_after_setAuthUser r req w)
    as (req' & w' & -> & _ & _ & _ & _ & <-).
  destruct r; try done; cbn [route];
    unfold franchiseRouter_get_userId, userRouter_get_me, userRouter_delete,
      userRouter_get, authenticateToken, req_user, bind, ret;
    destruct (Req.user req') as [u|]; eauto.
  destruct (_ || _); eauto.
Qed.

(** ** Registration *)

(** A field of the body that [!field] rejects: absent or empty. *)
Definition missing (field : option string) : Prop :=
  field = None \/ field = Some EmptyString.

Lemma present_missing field : missing field -> present field = None.
Proof. by intros [->| ->]. Qed.

Lemma present_given field s : field = Some s -> s <> EmptyString -> present field = Some s.
Proof.
  intros -> Hs. unfold present, truthy.
  destruct (String.eqb_spec s ""); [done|done].
Qed.

(** X5. Registration with a name, e-mail or password that is absent or
    empty is answered 400; no user is added, no token is issued and no
    call reaches the database. *)
Theorem register_requires_all_fields (req : Req.t) (w : World) :
  missing (Req.name (Req.body req))
  \/ missing (Req.email (Req.body req))
  \/ missing (Req.password (Req.body req)) ->
  authRouter_post hmac jwtSecret req w
  = (inr {| status := 400;
            json := JMessage "name, email, and password are required" |}, w).
Proof.
  unfold authRouter_post.
  intros [H|[H|H]]; rewrite (present_missing _ H);
    repeat case_match; done.
Qed.

(** X6. Registration with the three fields given adds a user with the
    given name and e-mail whose only role is diner, answers 200 with that
    user and the token signed for it, and records the session: a request
    that carries the token is authenticated as the new user, who is not an
    admin. *)
Theorem register_logs_in
  (req : Req.t) (w : World) (name email password : string) :
  Req.name (Req.body req) = Some name -> name <> EmptyString ->
  Req.email (Req.body req) = Some email -> email <> EmptyString ->
  Req.password (Req.body req) = Some password -> password <> EmptyString ->
  exists u,
    User.name u = name /\ User.email u = email
    /\ User.roles u = [{| role := Diner |}]
    /\ isRole u Admin = false
    /\ fst (authRouter_post hmac jwtSecret req w)
       = inr {| status := 200;
                json := JUserToken (Some u) (token_of hmac jwtSecret u) |}
    /\ (exists row, row ∈ users (db (snd (authRouter_post hmac jwtSecret req w)))
                    /\ UserRow.user row = u /\ UserRow.password row = password)
    /\ (forall p b,
          identity_after hmac jwtSecret
            (bearer (token_of hmac jwtSecret u) p b)
            (snd (authRouter_post hmac jwtSecret req w)) = Some u).
Proof.
  intros Hn Hn' He He' Hp Hp'.
  set (u := {| User.id := nextId (db w); User.name := name;
               User.email := email; User.roles := [{| role := Diner |}] |}).
  set (row := {| UserRow.id := nextId (db w); UserRow.name := name;
                 UserRow.email := email; UserRow.password := password;
                 UserRow.roles := [{| role := Diner |}] |}).
  assert (Hpost :
    authRouter_post hmac jwtSecret req w
    = (inr {| status := 200;
              json := JUserToken (Some u) (token_of hmac jwtSecret u) |},
       record_session (token_of hmac jwtSecret u) (User.id u)
         {| db := {| users := users (db w) ++ [row]; auth := auth (db w);
                     franchises := franchises (db w);
                     nextId := nextId (db w) + 1 |};
            calls := calls w ++ [AddUser name email password] |})).
  { unfold authRouter_post.
    by rewrite (present_given _ _ Hn Hn'), (present_given _ _ He He'),
      (present_given _ _ Hp Hp'). }
  exists u. rewrite Hpost. cbn [fst snd].
  split; [done|]. split; [done|]. split; [done|]. split; [done|].
  split; [done|]. split.
  - exists row. split; [|done]. cbn [record_session db users].
    apply elem_of_app. right. by apply list_elem_of_singleton.
  - intros p b. rewrite identity_after_unfold. unfold bearer.
    rewrite (readAuthToken_bearer _ p b (token_lacks_space hmac jwtSecret u)).
    rewrite token_truthy, jwt_verify_token.
    cbn [record_session db auth andb].
    rewrite bool_decide_eq_true_2; [done|].
    rewrite lookup_insert_eq. eauto.
Qed.

(** ** Creating a franchise *)

(** X7. Only an admin creates a franchise: for an authenticated user
    without the admin role the handler throws the 403 error before any
    call to the database; for an admin the outcome is that of
    [DB.createFranchise] on the name and the admins of the body. *)
Theorem create_franchise_admin_only (req : Req.t) (w : World) (I : User.t) :
  Req.user req = Some I ->
  (isRole I Admin = false ->
   franchiseRouter_post req w
   = (inl (StatusCodeError "unable to create a franchise" 403), w))
  /\ (isRole I Admin = true ->
      let created :=
        DB.createFranchise (Req.name (Req.body req)) (Req.admins (Req.body req)) w in
      franchiseRouter_post req w
      = (match fst created with
         | inr franchise => inr {| status := 200; json := JFranchise franchise |}
         | inl e => inl e
         end, snd created)).
Proof.
  intros Hreq.
  assert (Hpost :
    franchiseRouter_post req w
    = if isRole I Admin
      then (franchise <~ DB.createFranchise (Req.name (Req.body req))
                                            (Req.admins (Req.body req)) ;;
            ret (res_json (JFranchise franchise))) w
      else (inl (StatusCodeError "unable to create a franchise" 403), w)).
  { unfold franchiseRouter_post.
    rewrite (authenticateToken_user _ _ I Hreq).
    unfold bind at 1. unfold req_user. rewrite Hreq. cbn [ret].
    by destruct (isRole I Admin). }
  rewrite Hpost. split; intros ->; [done|].
  unfold bind.
  by destruct (DB.createFranchise _ _ w) as [[e|f] w'].
Qed.

(** ** Stores of a franchise that does not exist *)

(** X8. When the franchise of the route is not found, creating and
    deleting a store both throw the 403 error, for an admin as for anyone
    else, and the only call made is the lookup of the franchise. *)
Theorem store_routes_missing_franchise (req : Req.t) (w : World) (I : User.t) :
  Req.user req = Some I ->
  let fid := Req.franchiseId (Req.params req) in
  fst (DB.getFranchise fid w) = inr None ->
  franchiseRouter_post_store req w
  = (inl (StatusCodeError "unable to create a store" 403), franchise_read fid w)
  /\ franchiseRouter_delete_store req w
     = (inl (StatusCodeError "unable to delete a store" 403), franchise_read fid w).
Proof.
  intros Hreq fid Hf. rewrite getFranchise_unfold in Hf. cbn [fst] in Hf.
  injection Hf as Hf.
  unfold franchiseRouter_post_store, franchiseRouter_delete_store.
  rewrite !(authenticateToken_user _ _ I Hreq). fold fid.
  unfold bind. by rewrite !getFranchise_unfold, Hf.
Qed.

(** ** The token of the header *)

Lemma split_pieces_lack sep s :
  Forall (fun piece => lacks sep piece = true) (split sep s).
Proof.
  induction s as [|c s IH]; cbn [split].
  - by constructor.
  - destruct (Ascii.eqb c sep) eqn:Hc; [by constructor|].
    destruct (split sep s) as [|piece pieces].
    + constructor; [|done]. cbn [lacks]. by rewrite Hc.
    + inversion IH; subst. constructor; [|done]. cbn [lacks]. by rewrite Hc.
Qed.

(** X9. The token that [readAuthToken] returns is the text between the
    first and the second space of the header: it never holds a space, and
    whatever follows a second space is dropped. *)
Theorem readAuthToken_takes_second_piece :
  (forall req T, readAuthToken req = Some T -> lacks " " T = true)
  /\ (forall word T rest p b,
        lacks " " word = true -> lacks " " T = true ->
        readAuthToken (with_header (word +:+ " " +:+ T +:+ " " +:+ rest) p b)
        = Some T).
Proof.
  split.
  - intros req T. unfold readAuthToken.
    destruct (Req.authorization req) as [h|]; [|done].
    destruct (truthy h); [|done].
    intros HT. apply list_elem_of_lookup_2 in HT.
    pose proof (split_pieces_lack " " h) as Hall.
    rewrite Forall_forall in Hall. by apply Hall.
  - intros word T rest p b Hw HT. unfold readAuthToken, with_header.
    cbn [Req.authorization Req.incoming].
    rewrite truthy_app_sep.
    by rewrite !split_app_sep.
Qed.

(** ** Deleting a franchise *)

(** X10. [DELETE /api/franchise/:franchiseId] does not depend on who asks:
    for every request, with or without a header, the answer is 200 and the
    database is the one that [DB.deleteFranchise] leaves for the id of the
    route. *)
Theorem delete_franchise_ignores_identity (req : Req.t) (w : World) :
  let fid := Req.franchiseId (Req.params req) in
  fst (service hmac jwtSecret DELETE_franchise req w)
  = inr {| status := 200; json := JMessage "franchise deleted" |}
  /\ db (snd (service hmac jwtSecret DELETE_franchise req w))
     = db (snd (DB.deleteFranchise fid w))
  /\ DeleteFranchise fid
     ∈ calls (snd (service hmac jwtSecret DELETE_franchise req w)).
Proof.
  intros fid.
  destruct (service_after_setAuthUser DELETE_franchise req w)
    as (req' & w' & -> & _ & Hp & _ & _ & Hdb).
  cbn [route]. rewrite franchiseRouter_delete_unguarded, Hp. fold fid.
  cbn [fst snd]. split; [done|].
  unfold DB.deleteFranchise, bind, call, get_db, put_db. cbn [fst snd db calls].
  rewrite Hdb. split; [done|].
  apply elem_of_app. right. by apply list_elem_of_singleton.
Qed.

(** ** What no route does *)

Ltac run_route :=
  unfold authRouter_post, authRouter_put, login_with, authRouter_delete,
    franchiseRouter_get_userId, franchiseRouter_post, franchiseRouter_delete,
    franchiseRouter_post_store, franchiseRouter_delete_store,
    userRouter_get_me, userRouter_put, userRouter_delete, userRouter_get,
    authenticateToken, store_denied, franchise_id, req_user, clearAuth,
    setAuth, jwt_sign,
    DB.addUser, DB.getUser, DB.updateUser, DB.getFranchise,
    DB.getUserFranchises, DB.createFranchise, DB.deleteFranchise,
    DB.createStore, DB.deleteStore, DB.loginUser, DB.logoutUser,
    fresh_id, bind, ret, throw, lift, call, get_db, put_db in *;
  cbn [fst snd db calls users auth franchises nextId] in *.

(** X11. No route throws a [TypeError]: wherever a handler reads a field of
    [req.user] or of the franchise it looked up, a test before it has
    excluded [null] and [undefined]. *)
Theorem routes_never_dereference_null
  (r : Route) (req : Req.t) (w : World) (message : string) :
  fst (service hmac jwtSecret r req w) <> inl (TypeError message).
Proof.
  destruct (service_after_setAuthUser r req w)
    as (req' & w' & -> & _).
  destruct r; cbn [route]; run_route;
    repeat case_match; simplify_eq/=; done.
Qed.

(** An outcome that refuses the request: a response with status 400, 401
    or 403, or the 403 error thrown by a handler. *)
Definition refused (outcome : Error + Response) : bool :=
  match outcome with
  | inr resp =>
      Z.eqb (status resp) 400 || Z.eqb (status resp) 401
      || Z.eqb (status resp) 403
  | inl (StatusCodeError _ statusCode) => Z.eqb statusCode 403
  | inl _ => false
  end.

(** X12. A refused request writes nothing: whenever a route answers 400,
    401 or 403, or throws its 403 error, the database is as it was. *)
Theorem refused_requests_write_nothing (r : Route) (req : Req.t) (w : World) :
  refused (fst (service hmac jwtSecret r req w)) = true ->
  db (snd (service hmac jwtSecret r req w)) = db w.
Proof.
  destruct (service_after_setAuthUser r req w)
    as (req' & w' & -> & _ & _ & _ & _ & <-).
  destruct r; cbn [route]; run_route;
    repeat case_match; simplify_eq/=; done.
Qed.

(** X13. The status of every response is 200, 400, 401 or 403: 400 comes
    only from registration, 401 only from a route behind
    [authenticateToken] when the header gave no identity, and the 403
    response only from the update of a user. *)
Theorem response_statuses
  (r : Route) (req : Req.t) (w : World) (resp : Response) :
  fst (service hmac jwtSecret r req w) = inr resp ->
  status resp = 200
  \/ (status resp = 400 /\ r = POST_auth)
  \/ (status resp = 401 /\ guarded r = true
      /\ identity_after hmac jwtSecret req w = None)
  \/ (status resp = 403 /\ r = PUT_user).
Proof.
  destruct (service_after_setAuthUser r req w)
    as (req' & w' & -> & Hu & _).
  destruct (identity_after hmac jwtSecret req w) as [u|];
    destruct r; cbn [route]; run_route; rewrite ?Hu;
    repeat case_match; simplify_eq/=; intros; simplify_eq/=; eauto 10.
Qed.

(** ** Sessions *)

(** X14. A logout that succeeds removes the session record of the token in
    the header and nothing else: the other session records, the users and
    the franchises are as before. *)
Theorem logout_revokes_only_presented_token (req : Req.t) (w : World) :
  Req.user req = None ->
  fst (service hmac jwtSecret DELETE_auth req w)
  = inr {| status := 200; json := JMessage "logout successful" |} ->
  exists T,
    readAuthToken req = Some T
    /\ auth (db (snd (service hmac jwtSecret DELETE_auth req w)))
       = delete T (auth (db w))
    /\ (forall T0, T0 <> T ->
          auth (db (snd (service hmac jwtSecret DELETE_auth req w))) !! T0
          = auth (db w) !! T0)
    /\ users (db (snd (service hmac jwtSecret DELETE_auth req w))) = users (db w)
    /\ franchises (db (snd (service hmac jwtSecret DELETE_auth req w)))
       = franchises (db w).
Proof.
  intros Hreq.
  destruct (service_logout_cases hmac jwtSecret req w Hreq)
    as [(_ & -> & _)|(T & u & HT & _ & ->)]; [done|].
  intros _. exists T. cbn [snd revoked logged db auth users franchises].
  split; [done|]. split; [done|].
  split; [|done]. intros T0 HT0. by apply lookup_delete_ne.
Qed.

Lemma identity_after_issued u w p b :
  identity_after hmac jwtSecret (bearer (token_of hmac jwtSecret u) p b)
    (snd (setAuth hmac jwtSecret (Some u) w)) = Some u.
Proof.
  rewrite identity_after_unfold. unfold bearer.
  rewrite (readAuthToken_bearer _ p b (token_lacks_space hmac jwtSecret u)).
  rewrite token_truthy, jwt_verify_token, setAuth_user.
  cbn [snd record_session db auth andb].
  rewrite bool_decide_eq_true_2; [done|].
  rewrite lookup_insert_eq. eauto.
Qed.

(** X15. The life of a session: once [setAuth] has issued the token of a
    user, a request with [Bearer token] gets that user from
    [GET /api/user/me]; the logout with the same header is answered 200;
    after it the session record is gone and [GET /api/user/me] with the
    same header is answered 401. *)
Theorem session_life_cycle
  (u : User.t) (w : World) (p : Req.params_t) (b : Req.body_t) :
  let req := bearer (token_of hmac jwtSecret u) p b in
  let w1 := snd (setAuth hmac jwtSecret (Some u) w) in
  let w2 := snd (service hmac jwtSecret DELETE_auth req w1) in
  fst (service hmac jwtSecret GET_user_me req w1)
  = inr {| status := 200; json := JUser u |}
  /\ fst (service hmac jwtSecret DELETE_auth req w1)
     = inr {| status := 200; json := JMessage "logout successful" |}
  /\ auth (db w2) !! token_of hmac jwtSecret u = None
  /\ fst (service hmac jwtSecret GET_user_me req w2) = inr unauthorized.
Proof.
  intros req w1 w2.
  pose proof (identity_after_issued u w p b) as Hid. fold req w1 in Hid.
  assert (Hread : readAuthToken req = Some (token_of hmac jwtSecret u))
    by apply (readAuthToken_bearer _ p b (token_lacks_space hmac jwtSecret u)).
  assert (Hout : service hmac jwtSecret DELETE_auth req w1
                 = (inr (res_json (JMessage "logout successful")),
                    revoked (token_of hmac jwtSecret u)
                      (logged (token_of hmac jwtSecret u) w1))).
  { destruct (service_logout_cases hmac jwtSecret req w1 eq_refl)
      as [(Hnone & _)|(T & u' & HT & _ & ->)]; [congruence|].
    rewrite Hread in HT. by injection HT as <-. }
  split.
  { destruct (service_after_setAuthUser GET_user_me req w1)
      as (req' & w' & -> & Hu & _).
    rewrite Hid in Hu. cbn [route]. unfold userRouter_get_me.
    rewrite (authenticateToken_user _ _ u Hu).
    unfold bind, req_user. by rewrite Hu. }
  split; [by rewrite Hout|].
  assert (Hgone : auth (db w2) !! token_of hmac jwtSecret u = None).
  { subst w2. rewrite Hout. apply revoked_inactive. }
  split; [done|].
  destruct (service_after_setAuthUser GET_user_me req w2)
    as (req' & w' & -> & Hu & _).
  rewrite identity_after_unfold, Hread, token_truthy in Hu.
  rewrite bool_decide_eq_false_2 in Hu; [|rewrite Hgone; by intros [? ?]].
  by rewrite guarded_routes_reject_anonymous.
Qed.

(** X16. Issuing a token logs nobody out: [setAuth] records the session of
    the new token and leaves every other session record, the users and the
    franchises as they were, so every request that was authenticated
    before is authenticated as the same user afterwards. *)
Theorem setAuth_keeps_sessions (u : User.t) (w : World) :
  let T := token_of hmac jwtSecret u in
  let w' := snd (setAuth hmac jwtSecret (Some u) w) in
  fst (setAuth hmac jwtSecret (Some u) w) = inr T
  /\ auth (db w') !! T = Some (User.id u)
  /\ (forall T0, T0 <> T -> auth (db w') !! T0 = auth (db w) !! T0)
  /\ users (db w') = users (db w)
  /\ franchises (db w') = franchises (db w)
  /\ (forall req u0,
        Req.user req = None ->
        identity_after hmac jwtSecret req w = Some u0 ->
        identity_after hmac jwtSecret req w' = Some u0).
Proof.
  intros T w'. subst w'. rewrite setAuth_user. fold T.
  cbn [fst snd record_session db auth users franchises].
  split; [done|]. split; [apply lookup_insert_eq|].
  split; [intros T0 HT0; by apply lookup_insert_ne|].
  split; [done|]. split; [done|].
  intros req u0 Hreq. rewrite !identity_after_unfold.
  destruct (readAuthToken req) as [T0|]; [|done].
  destruct (truthy T0); [|by rewrite Hreq].
  cbn [andb record_session db auth].
  case_bool_decide as Hin; [|by rewrite Hreq].
  intros Hv. rewrite bool_decide_eq_true_2; [done|].
  rewrite lookup_insert. case_decide; eauto.
Qed.

(** ** Listing the franchises of a user *)

(** X17. A user lists their own franchises and an admin lists anyone's:
    the answer is 200 with what [DB.getUserFranchises] returns for the
    user id of the route, every franchise of the list has that id among
    its admins, and the database is not written. *)
Theorem franchise_list_self_or_admin (req : Req.t) (w : World) (I : User.t) :
  Req.user req = Some I ->
  let U := Req.userId (Req.params req) in
  U = Num (User.id I) \/ isRole I Admin = true ->
  exists result,
    fst (DB.getUserFranchises U w) = inr result
    /\ franchiseRouter_get_userId req w
       = (inr {| status := 200; json := JFranchises result |},
          snd (DB.getUserFranchises U w))
    /\ db (snd (franchiseRouter_get_userId req w)) = db w
    /\ (forall f, f ∈ result ->
                  f ∈ franchises (db w)
                  /\ exists a, a ∈ Franchise.admins f /\ U = Num (Admin.id a)).
Proof.
  intros Hreq U HU.
  exists (List.filter (DB.is_admin_of U) (franchises (db w))).
  assert (Hok : number_eqb (Num (User.id I)) U || isRole I Admin = true).
  { destruct HU as [HU|HU]; [apply number_eqb_eq in HU|];
      rewrite HU; [done|apply orb_true_r]. }
  assert (Hget : franchiseRouter_get_userId req w
                 = (inr {| status := 200;
                           json := JFranchises
                                     (List.filter (DB.is_admin_of U)
                                                  (franchises (db w))) |},
                    snd (DB.getUserFranchises U w))).
  { unfold franchiseRouter_get_userId.
    rewrite (authenticateToken_user _ _ I Hreq). fold U.
    unfold bind at 1. unfold req_user. rewrite Hreq. cbn [ret].
    by rewrite Hok. }
  split; [done|]. split; [done|]. rewrite Hget. split; [done|].
  intros f Hf. apply list_elem_of_In, filter_In in Hf as [Hf Hadm].
  split; [by apply list_elem_of_In|].
  unfold DB.is_admin_of in Hadm. apply existsb_exists in Hadm as (a & Ha & Hau).
  exists a. split; [by apply list_elem_of_In|]. by apply number_eqb_eq.
Qed.

(** ** The update of a user, for any database *)

(** The body of [userRouter.put('/:userId')], with [DB.updateUser] as a
    parameter. *)
Definition update_with
  (updateUser : number -> option string -> option string -> option string
                -> M User.t)
  (req : Req.t) : M Response :=
  authenticateToken req
    (let userId := Req.userId (Req.params req) in
     user <~ req_user req ;;
     if negb (number_eqb (Num (User.id user)) userId) && negb (isRole user Admin)
     then ret {| status := 403; json := JMessage "unauthorized" |}
     else
       updatedUser <~ updateUser userId (Req.name (Req.body req))
                        (Req.email (Req.body req))
                        (Req.password (Req.body req)) ;;
       auth <~ setAuth hmac jwtSecret (Some updatedUser) ;;
       ret (res_json (JUserToken (Some updatedUser) auth))).

Lemma userRouter_put_update_with :
  userRouter_put hmac jwtSecret = update_with DB.updateUser.
Proof. done. Qed.

(** X18. In the update of a user the token is issued after the update and
    for the user that [DB.updateUser] returns, not for the requester: when
    the update throws, its error is the outcome and no token is issued;
    when it returns a user, the answer carries the token of that user,
    which authenticates as that user. So an admin who updates another
    user receives a token of that user. This holds whatever
    [DB.updateUser] is. *)
Theorem update_issues_token_of_updated_user
  (updateUser : number -> option string -> option string -> option string
                -> M User.t)
  (req : Req.t) (w : World) (I : User.t) :
  Req.user req = Some I ->
  let U := Req.userId (Req.params req) in
  U = Num (User.id I) \/ isRole I Admin = true ->
  let attempt :=
    updateUser U (Req.name (Req.body req)) (Req.email (Req.body req))
      (Req.password (Req.body req)) w in
  (forall e, fst attempt = inl e ->
             update_with updateUser req w = (inl e, snd attempt))
  /\ (forall u',
        fst attempt = inr u' ->
        update_with updateUser req w
        = (inr {| status := 200;
                  json := JUserToken (Some u') (token_of hmac jwtSecret u') |},
           record_session (token_of hmac jwtSecret u') (User.id u') (snd attempt))
        /\ forall p b,
            identity_after hmac jwtSecret
              (bearer (token_of hmac jwtSecret u') p b)
              (snd (update_with updateUser req w)) = Some u').
Proof.
  intros Hreq U HU attempt.
  assert (Hok : negb (number_eqb (Num (User.id I)) U) && negb (isRole I Admin)
                = false).
  { destruct HU as [HU|HU]; [apply number_eqb_eq in HU|];
      rewrite HU; [done|apply andb_false_r]. }
  assert (Hput :
    update_with updateUser req w
    = match attempt with
      | (inl e, w1) => (inl e, w1)
      | (inr u', w1) =>
          (inr (res_json (JUserToken (Some u') (token_of hmac jwtSecret u'))),
           record_session (token_of hmac jwtSecret u') (User.id u') w1)
      end).
  { unfold update_with. rewrite (authenticateToken_user _ _ I Hreq). fold U.
    unfold bind at 1. unfold req_user. rewrite Hreq. cbn [ret]. rewrite Hok.
    unfold bind. fold attempt. destruct attempt as [[e|u'] w1]; [done|].
    by rewrite setAuth_user. }
  rewrite Hput. destruct attempt as [[e|u'] w1]; cbn [fst snd].
  - split; [by intros e' [= <-]|done].
  - split; [done|]. intros u'' [= <-]. split; [done|].
    intros p b. rewrite identity_after_unfold. unfold bearer.
    rewrite (readAuthToken_bearer _ p b (token_lacks_space hmac jwtSecret u')).
    rewrite token_truthy, jwt_verify_token.
    cbn [record_session db auth andb].
    rewrite bool_decide_eq_true_2; [done|].
    rewrite lookup_insert_eq. eauto.
Qed.

(** ** The documentation tables *)







End MoreRouters.

(** * Concrete runs of the further properties *)

Lemma no_identity_no_access_witness :
  fst (service sample_hmac sample_secret GET_user_me
         (Req.incoming None no_params no_body) w0) = inr unauthorized
  /\ db (snd (service sample_hmac sample_secret GET_user_me
                (Req.incoming None no_params no_body) w0)) = db w0.
Proof.
  apply (no_identity_no_access sample_hmac sample_secret GET_user_me
           (Req.incoming None no_params no_body) w0); reflexivity.
Defined.

Lemma me_returns_identity_witness :
  fst (service sample_hmac sample_secret GET_user_me
         (bearer diner_token no_params no_body) w_diner)
  = inr {| status := 200; json := JUser diner2 |}
  /\ db (snd (service sample_hmac sample_secret GET_user_me
                (bearer diner_token no_params no_body) w_diner)) = db w_diner.
Proof.
  apply (me_returns_identity sample_hmac sample_secret
           (bearer diner_token no_params no_body) w_diner diner2).
  vm_compute; reflexivity.
Defined.

(** The diner asks to delete the franchisee: nothing is deleted. *)
Lemma read_only_routes_witness :
  db (snd (service sample_hmac sample_secret DELETE_user
             (bearer diner_token (params (Num 4) NaN NaN) no_body) w_diner))
  = db w_diner
  /\ exists resp,
       fst (service sample_hmac sample_secret DELETE_user
              (bearer diner_token (params (Num 4) NaN NaN) no_body) w_diner)
       = inr resp.
Proof.
  apply (read_only_routes sample_hmac sample_secret DELETE_user
           (bearer diner_token (params (Num 4) NaN NaN) no_body) w_diner).
  reflexivity.
Defined.

Definition register_body (name : option string) : Req.body_t :=
  {| Req.name := name; Req.email := Some "n@jwt.com";
     Req.password := Some "new"; Req.admins := [] |}.

(** Registration with an empty name. *)
Lemma register_requires_all_fields_witness :
  authRouter_post sample_hmac sample_secret
    (Req.incoming None no_params (register_body (Some EmptyString))) w0
  = (inr {| status := 400;
            json := JMessage "name, email, and password are required" |}, w0).
Proof.
  apply (register_requires_all_fields sample_hmac sample_secret
           (Req.incoming None no_params (register_body (Some EmptyString))) w0).
  left. right. reflexivity.
Defined.

Lemma register_logs_in_witness :
  exists u,
    User.name u = "newcomer" /\ User.email u = "n@jwt.com"
    /\ User.roles u = [{| role := Diner |}]
    /\ isRole u Admin = false
    /\ fst (authRouter_post sample_hmac sample_secret
              (Req.incoming None no_params (register_body (Some "newcomer"))) w0)
       = inr {| status := 200;
                json := JUserToken (Some u)
                          (token_of sample_hmac sample_secret u) |}
    /\ (exists row,
           row ∈ users (db (snd (authRouter_post sample_hmac sample_secret
                                   (Req.incoming None no_params
                                      (register_body (Some "newcomer"))) w0)))
           /\ UserRow.user row = u /\ UserRow.password row = "new")
    /\ (forall p b,
          identity_after sample_hmac sample_secret
            (bearer (token_of sample_hmac sample_secret u) p b)
            (snd (authRouter_post sample_hmac sample_secret
                    (Req.incoming None no_params
                       (register_body (Some "newcomer"))) w0)) = Some u).
Proof.
  apply (register_logs_in sample_hmac sample_secret
           (Req.incoming None no_params (register_body (Some "newcomer"))) w0
           "newcomer" "n@jwt.com" "new");
    first [reflexivity | discriminate].
Defined.

Definition franchise_body : Req.body_t :=
  {| Req.name := Some "pizzaPlanet"; Req.email := None; Req.password := None;
     Req.admins := ["f@jwt.com"] |}.

(** The franchisee may not create a franchise; the admin may. *)
Lemma create_franchise_admin_only_witness :
  franchiseRouter_post (as_user franchisee4 no_params franchise_body) w0
  = (inl (StatusCodeError "unable to create a franchise" 403), w0)
  /\ fst (franchiseRouter_post (as_user admin1 no_params franchise_body) w0)
     = inr {| status := 200;
              json := JFranchise
                        {| Franchise.id := 5; Franchise.name := "pizzaPlanet";
                           Franchise.admins :=
                             [DB.admin_of_row (row_of franchisee4 "franchisee")];
                           Franchise.stores := [] |} |}.
Proof.
  split.
  - apply (proj1 (create_franchise_admin_only
                    (as_user franchisee4 no_params franchise_body) w0
                    franchisee4 eq_refl)).
    reflexivity.
  - rewrite (proj2 (create_franchise_admin_only
                      (as_user admin1 no_params franchise_body) w0
                      admin1 eq_refl) eq_refl).
    reflexivity.
Defined.

(** The admin adds a store to a franchise that does not exist. *)
Lemma store_routes_missing_franchise_witness :
  franchiseRouter_post_store (as_user admin1 (params NaN (Num 9) NaN) store_body) w0
  = (inl (StatusCodeError "unable to create a store" 403),
     franchise_read (Num 9) w0)
  /\ franchiseRouter_delete_store
       (as_user admin1 (params NaN (Num 9) NaN) store_body) w0
     = (inl (StatusCodeError "unable to delete a store" 403),
        franchise_read (Num 9) w0).
Proof.
  apply (store_routes_missing_franchise
           (as_user admin1 (params NaN (Num 9) NaN) store_body) w0 admin1);
    reflexivity.
Defined.

Lemma readAuthToken_takes_second_piece_witness :
  readAuthToken (with_header ("Bearer" +:+ " " +:+ "tttttt" +:+ " " +:+ "x y")
                             no_params no_body)
  = Some "tttttt"
  /\ lacks " " "tttttt" = true.
Proof.
  destruct readAuthToken_takes_second_piece as [Hlacks Hsecond].
  assert (H : readAuthToken
                (with_header ("Bearer" +:+ " " +:+ "tttttt" +:+ " " +:+ "x y")
                             no_params no_body) = Some "tttttt")
    by (apply Hsecond; reflexivity).
  split; [exact H|exact (Hlacks _ _ H)].
Defined.

(** The diner's attempt to rename the franchisee is refused. *)
Lemma refused_requests_write_nothing_witness :
  db (snd (service sample_hmac sample_secret PUT_user
             (bearer diner_token (params (Num 4) NaN NaN) rename_body) w_diner))
  = db w_diner.
Proof.
  apply (refused_requests_write_nothing sample_hmac sample_secret PUT_user
           (bearer diner_token (params (Num 4) NaN NaN) rename_body) w_diner).
  vm_compute; reflexivity.
Defined.

Lemma response_statuses_witness :
  status forbidden = 200
  \/ (status forbidden = 400 /\ PUT_user = POST_auth)
  \/ (status forbidden = 401 /\ guarded PUT_user = true
      /\ identity_after sample_hmac sample_secret
           (bearer diner_token (params (Num 4) NaN NaN) rename_body) w_diner
         = None)
  \/ (status forbidden = 403 /\ PUT_user = PUT_user).
Proof.
  apply (response_statuses sample_hmac sample_secret PUT_user
           (bearer diner_token (params (Num 4) NaN NaN) rename_body) w_diner
           forbidden).
  vm_compute; reflexivity.
Defined.

Lemma logout_revokes_only_presented_token_witness :
  exists T,
    readAuthToken (bearer diner_token no_params no_body) = Some T
    /\ auth (db (snd (service sample_hmac sample_secret DELETE_auth
                        (bearer diner_token no_params no_body) w_diner)))
       = delete T (auth (db w_diner))
    /\ (forall T0, T0 <> T ->
          auth (db (snd (service sample_hmac sample_secret DELETE_auth
                           (bearer diner_token no_params no_body) w_diner)))
            !! T0
          = auth (db w_diner) !! T0)
    /\ users (db (snd (service sample_hmac sample_secret DELETE_auth
                         (bearer diner_token no_params no_body) w_diner)))
       = users (db w_diner)
    /\ franchises (db (snd (service sample_hmac sample_secret DELETE_auth
                              (bearer diner_token no_params no_body) w_diner)))
       = franchises (db w_diner).
Proof.
  apply (logout_revokes_only_presented_token sample_hmac sample_secret
           (bearer diner_token no_params no_body) w_diner);
    [reflexivity|vm_compute; reflexivity].
Defined.

(** The franchisee lists their own franchises. *)
Lemma franchise_list_self_or_admin_witness :
  exists result,
    fst (DB.getUserFranchises (Num 4) w0) = inr result
    /\ franchiseRouter_get_userId
         (as_user franchisee4 (params (Num 4) NaN NaN) no_body) w0
       = (inr {| status := 200; json := JFranchises result |},
          snd (DB.getUserFranchises (Num 4) w0))
    /\ db (snd (franchiseRouter_get_userId
                  (as_user franchisee4 (params (Num 4) NaN NaN) no_body) w0))
       = db w0
    /\ (forall f, f ∈ result ->
                  f ∈ franchises (db w0)
                  /\ exists a, a ∈ Franchise.admins f /\ Num 4 = Num (Admin.id a)).
Proof.
  apply (franchise_list_self_or_admin
           (as_user franchisee4 (params (Num 4) NaN NaN) no_body) w0 franchisee4
           eq_refl).
  left. reflexivity.
Defined.

(** The admin renames the diner and receives a token of the diner. *)
Lemma update_issues_token_of_updated_user_witness :
  fst (update_with sample_hmac sample_secret DB.updateUser
         (as_user admin1 (params (Num 2) NaN NaN) rename_body) w0)
  = inr {| status := 200;
           json := JUserToken (Some renamed_diner)
                     (token_of sample_hmac sample_secret renamed_diner) |}
  /\ forall p b,
       identity_after sample_hmac sample_secret
         (bearer (token_of sample_hmac sample_secret renamed_diner) p b)
         (snd (update_with sample_hmac sample_secret DB.updateUser
                 (as_user admin1 (params (Num 2) NaN NaN) rename_body) w0))
       = Some renamed_diner.
Proof.
  destruct (proj2 (update_issues_token_of_updated_user sample_hmac sample_secret
                     DB.updateUser
                     (as_user admin1 (params (Num 2) NaN NaN) rename_body)
                     w0 admin1 eq_refl (or_intror eq_refl))
                  renamed_diner eq_refl) as [Hput Hid].
  split; [by rewrite Hput|exact Hid].
Defined.


